(** * Rayleigh lidar utilities: a shallow embedding of
      [datas/lidar/lidar_utilities.py]

    The Python module chains closed-form formulas and one table
    interpolation into the molecular backscatter / extinction /
    two-way-transmission profile used for lidar calibration.

    Modelling conventions.
    - A Python [float] and a numpy [float64] are idealised as a real number
      ([R]); rounding, overflow, [inf] and [nan] are outside the model.
    - A one-dimensional numpy array is a [list R]; numpy's broadcasting rule
      for two one-dimensional operands is written out in [Np.broadcast].
    - The wavelength is a Python scalar (the script passes [1064]), so a
      zero divisor in the scalar formulas raises [ZeroDivisionError].
    - Exceptions are values: every function that can raise returns a
      [result], and the order of the binds is the evaluation order of the
      Python expression.
    - [scipy.interpolate.interp1d] and the numpy primitives are library code;
      they are modelled from their documented behaviour in the modules
      [Np] and [Scipy]. *)

From Stdlib Require Import Reals Lra Lia List Bool Arith.
Import ListNotations.
Open Scope R_scope.

(** ** Python: exceptions and scalar arithmetic *)

Module Py.

(** The exceptions the module can raise. *)
Inductive exn : Type :=
| ZeroDivisionError                 (* float division or 0.0 ** negative *)
| ValueError_below_range            (* interp1d: x_new below x[0] *)
| ValueError_above_range            (* interp1d: x_new above x[-1] *)
| ValueError_broadcast (n m : nat). (* operands could not be broadcast *)

Inductive result (A : Type) : Type :=
| Ok (a : A)
| Raise (e : exn).
Arguments Ok {A} a.
Arguments Raise {A} e.

Definition bind {A B : Type} (c : result A) (k : A -> result B) : result B :=
  match c with
  | Ok a => k a
  | Raise e => Raise e
  end.

Definition is_ok {A : Type} (c : result A) : bool :=
  match c with Ok _ => true | Raise _ => false end.

Definition map_result {A B : Type} (f : A -> B) (c : result A) : result B :=
  bind c (fun a => Ok (f a)).

(** [x / y] on Python floats. *)
Definition div (x y : R) : result R :=
  if Req_dec_T y 0 then Raise ZeroDivisionError else Ok (x / y).

(** [x ** y] on Python floats, for a negative exponent [y] that is not an
    integer (the only use in the module is [wavelength ** (-4.0117)]).
    A zero base raises; a positive base gives [exp (y * ln x)].  For a
    negative base Python leaves the reals (it returns a [complex]) without
    raising: the model carries on without raising as well, and the value it
    puts there has no meaning. *)
Definition pow (x y : R) : result R :=
  if Req_dec_T x 0 then Raise ZeroDivisionError else Ok (Rpower x y).

End Py.

Import Py.

Notation "x <- c ;; k" := (Py.bind c (fun x => k))
  (at level 61, c at next level, right associativity).

(** ** numpy: one-dimensional arrays *)

Module Np.

Definition ndarray : Type := list R.

Definition zip_with (f : R -> R -> R) (a b : ndarray) : ndarray :=
  map (fun p => f (fst p) (snd p)) (combine a b).

(** A binary elementwise operator on two one-dimensional arrays: equal
    shapes go pointwise, a length-one operand is stretched, anything else
    raises [ValueError]. *)
Definition broadcast (f : R -> R -> R) (a b : ndarray) : result ndarray :=
  if Nat.eqb (length a) (length b) then Ok (zip_with f a b)
  else match a, b with
       | [x], _ => Ok (map (f x) b)
       | _, [y] => Ok (map (fun x => f x y) a)
       | _, _ => Raise (ValueError_broadcast (length a) (length b))
       end.

(** [a / b] on arrays.  A zero divisor does not raise in numpy (it warns and
    stores [inf] or [nan]); the model stores [Rdiv]'s value. *)
Definition divide (a b : ndarray) : result ndarray := broadcast Rdiv a b.

(** [np.sum] of a one-dimensional array. *)
Definition sum (a : ndarray) : R := fold_right Rplus 0 a.

(** [np.sum] of a list of equally long arrays (a two-dimensional array):
    the sum of every entry. *)
Definition sum2 (rows : list ndarray) : R := sum (concat rows).

(** [np.arange(lo, hi)] on integers. *)
Definition arange (lo hi : nat) : list nat := seq lo (hi - lo).

(** [np.searchsorted(xs, v)] with the default [side='left'] on an ascending
    [xs]: the number of entries strictly below [v]. *)
Fixpoint searchsorted (xs : ndarray) (v : R) : nat :=
  match xs with
  | [] => 0
  | x :: xs' => if Rlt_dec x v then S (searchsorted xs' v) else 0
  end.

(** [i.clip(lo, hi)] = [minimum(hi, maximum(i, lo))]. *)
Definition clip (i lo hi : nat) : nat := Nat.min hi (Nat.max i lo).

End Np.

Import Np.

(** ** scipy: [interp1d(x, y, kind='linear')(x_new)]

    With the default [bounds_error] the call raises [ValueError] when [x_new]
    lies below [x[0]] or above [x[-1]].  Inside the range the value is
    [slope * (x_new - x_lo) + y_lo] on the segment found by
    [searchsorted(x, x_new).clip(1, len(x) - 1)], as in interp1d's
    [_call_linear]; the [np.interp] fast path evaluates the same chord. *)

Module Scipy.

Definition interp1d_linear (x y : ndarray) (x_new : R) : result R :=
  if Rlt_dec x_new (hd 0 x) then Raise ValueError_below_range
  else if Rlt_dec (last x 0) x_new then Raise ValueError_above_range
  else
    let hi := clip (searchsorted x x_new) 1 (length x - 1) in
    let lo := (hi - 1)%nat in
    let x_lo := nth lo x 0 in
    let x_hi := nth hi x 0 in
    let y_lo := nth lo y 0 in
    let y_hi := nth hi y 0 in
    let slope := (y_hi - y_lo) / (x_hi - x_lo) in
    Ok (slope * (x_new - x_lo) + y_lo).

End Scipy.

Import Scipy.

(** ** lidar_utilities.py *)

(** [calc_beta_rayleigh(wavelength, P, T, nanometers=True)] *)
Definition calc_beta_rayleigh (wavelength : R) (P T : ndarray)
    (nanometers : bool) : result ndarray :=
  let wavelength := if nanometers then wavelength * 1e-9 else wavelength in
  q <- divide P T ;;
  w <- Py.pow wavelength (-4.0117) ;;
  Ok (map (fun x => 2.938e-32 * x * w) q).

Definition kB : R := 1.38064852e-23.

(** [calc_number_density(pressure, temperature, celsius=True)] *)
Definition calc_number_density (pressure temperature : ndarray)
    (celsius : bool) : result ndarray :=
  if celsius
  then divide pressure (map (fun t => kB * (t + 273.15)) temperature)
  else divide pressure (map (fun t => kB * t) temperature).

(** [calc_index_refraction(wavelength)], wavelength in nm. *)
Definition calc_index_refraction (wavelength : R) : result R :=
  a1 <- Py.div (10 ^ 6) (wavelength ^ 2) ;;
  t1 <- Py.div 5791817.0 (238.0185 - a1) ;;
  a2 <- Py.div (10 ^ 6) (wavelength ^ 2) ;;
  t2 <- Py.div 167909.0 (57.362 - a2) ;;
  Ok (1.0 + (t1 + t2) * 1e-8).

(** The table embedded in [calc_depol_ratio]. *)
Definition wavelengths : ndarray :=
  [200;  205;  210;  215;  220;
   225;  230;  240;  250;  260;
   270;  280;  290;  300;  310;
   320;  330;  340;  350;  360;
   370;  380;  390;  400;  450;
   500;  550;  600;  650;  700;
   800;  850;  900;  950;  1000;
   1064].

Definition depolarize : ndarray :=
  [0.0454545;  0.0438372;  0.0422133;  0.0411272;  0.0400381;
   0.0389462;  0.0378513;  0.0367534;  0.0356527;  0.0345489;
   0.033996;   0.0328878;  0.0323326;  0.0317766;  0.0317766;
   0.0312199;  0.0306624;  0.0306624;  0.0301042;  0.0301042;
   0.0301042;  0.0295452;  0.0295452;  0.0295452;  0.0289855;
   0.028425;   0.028425;   0.0278638;  0.0278638;  0.0278638;
   0.0273018;  0.0273018;  0.0273018;  0.0273018;  0.0273018;
   0.0273018].

(** [calc_depol_ratio(wavelength)], wavelength in nm. *)
Definition calc_depol_ratio (wavelength : R) : result R :=
  interp1d_linear wavelengths depolarize wavelength.

Definition nstp : R := 2.54691e25.

(** [calc_rayleigh_scat_cross(wavelength)], wavelength in nm. *)
Definition calc_rayleigh_scat_cross (wavelength : R) : result R :=
  n1 <- calc_index_refraction wavelength ;;
  let rs := 1e36 * 24 * PI ^ 3 * (n1 ^ 2 - 1) ^ 2 in
  n2 <- calc_index_refraction wavelength ;;
  rs <- Py.div rs (wavelength ^ 4 * nstp ^ 2 * (n2 ^ 2 + 2) ^ 2) ;;
  d1 <- calc_depol_ratio wavelength ;;
  d2 <- calc_depol_ratio wavelength ;;
  Ok (rs * ((6 + 3 * d1) / (6 - 7 * d2))).

(** [calc_rayleigh_extinction(wavelength, numberDensity)] *)
Definition calc_rayleigh_extinction (wavelength : R)
    (numberDensity : ndarray) : result ndarray :=
  rs <- calc_rayleigh_scat_cross wavelength ;;
  Ok (map (fun n => n * rs * 1000) numberDensity).

(** [calc_rayleigh_trans(rayleigh_extinction, altitude_profile,
    kilometers=True)].  Each element of [int_alpha] is the whole extinction
    array scaled by one altitude gap. *)
Definition calc_rayleigh_trans (rayleigh_extinction altitude_profile : ndarray)
    (kilometers : bool) : R :=
  let altitude_profile :=
    if kilometers then map (fun z => z / 1000) altitude_profile
    else altitude_profile in
  let int_alpha :=
    map (fun i =>
           map (fun a => a * (nth i altitude_profile 0
                              - nth (i - 1) altitude_profile 0))
               rayleigh_extinction)
        (arange 1 (length altitude_profile)) in
  exp (-2 * sum2 int_alpha).

(** The five outputs of [calc_rayleigh_beta_dot_trans]. *)
Record rayleigh_profile : Type := mk_profile {
  beta_dot_trans : ndarray;
  beta : ndarray;
  numberDensity : ndarray;
  alpha : ndarray;
  rayleigh_trans : R
}.

(** [calc_rayleigh_beta_dot_trans(wavelength, pressure, temperature,
    altitude, nanometers=True, kilometers=True, celsius=True)] *)
Definition calc_rayleigh_beta_dot_trans (wavelength : R)
    (pressure temperature altitude : ndarray)
    (nanometers kilometers celsius : bool) : result rayleigh_profile :=
  beta <- calc_beta_rayleigh wavelength pressure temperature nanometers ;;
  numberDensity <- calc_number_density pressure temperature celsius ;;
  alpha <- calc_rayleigh_extinction wavelength numberDensity ;;
  let rayleigh_trans := calc_rayleigh_trans alpha altitude kilometers in
  let beta_dot_trans := map (fun b => b * rayleigh_trans) beta in
  Ok (mk_profile beta_dot_trans beta numberDensity alpha rayleigh_trans).


(** ** Vocabulary of the statements *)

(** The altitude gaps [z[i] - z[i-1]], [i = 1 .. len(z) - 1], by structural
    recursion; [arange_gaps] relates it to the index form of the source. *)
Fixpoint gaps (z : ndarray) : ndarray :=
  match z with
  | [] => []
  | x :: t => match t with
              | [] => []
              | y :: _ => (y - x) :: gaps t
              end
  end.

(** The transmission the specification's step 8 describes: every extinction
    sample paired with the altitude gap of the same index,
    [exp(-2 * sum_{i=1}^{n-1} alpha[i] * (z[i] - z[i-1]))]. *)
Definition rectangle_rule_trans (alpha z : ndarray) : R :=
  exp (-2 * sum (map (fun i => nth i alpha 0 * (nth i z 0 - nth (i - 1) z 0))
                     (arange 1 (length z)))).

(** Altitude samples in ascending order, the invariant of a sounding. *)
Definition ascending (z : ndarray) : Prop :=
  forall i j, (i < j < length z)%nat -> nth i z 0 < nth j z 0.

(** A profile [x] sampled on the altitude grid [z] falls (strictly, weakly)
    with altitude. *)
Definition decreasing_with_altitude (z x : ndarray) : Prop :=
  forall i j, (i < length x)%nat -> (j < length x)%nat ->
    nth i z 0 < nth j z 0 -> nth j x 0 < nth i x 0.

Definition nonincreasing_with_altitude (z x : ndarray) : Prop :=
  forall i j, (i < length x)%nat -> (j < length x)%nat ->
    nth i z 0 < nth j z 0 -> nth j x 0 <= nth i x 0.

(** The wavelengths covered by the depolarization table, in nm. *)
Definition tabulated (wavelength : R) : Prop := 200 <= wavelength <= 1064.

(** Pressure falling (strictly, weakly) along the profile. *)
Definition descending (P : ndarray) : Prop :=
  forall i j, (i < j < length P)%nat -> nth j P 0 < nth i P 0.

Definition nonincreasing (P : ndarray) : Prop :=
  forall i j, (i < j < length P)%nat -> nth j P 0 <= nth i P 0.

(** Consecutive comparisons, enough for [ascending]
    ([ascending_chain_ascending]). *)
Fixpoint ascending_chain (l : ndarray) : Prop :=
  match l with
  | [] => True
  | x :: t => match t with
              | [] => True
              | y :: _ => x < y /\ ascending_chain t
              end
  end.

(** The chord of the table [(x, y)] over segment [k], evaluated at [v]. *)
Definition on_segment (x y : ndarray) (k : nat) (v : R) : R :=
  nth k y 0
  + (nth (S k) y 0 - nth k y 0) / (nth (S k) x 0 - nth k x 0) * (v - nth k x 0).

(** Consecutive comparisons, enough for [nonincreasing]
    ([nonincreasing_chain_nonincreasing]). *)
Fixpoint nonincreasing_chain (l : ndarray) : Prop :=
  match l with
  | [] => True
  | x :: t => match t with
              | [] => True
              | y :: _ => y <= x /\ nonincreasing_chain t
              end
  end.

(** ** roots_useful.py: [airdata.filter_avg] and
    [airdata.filter_avg_by_day]

    The measurements are floats (reals here), the time stamps are
    [datetime] objects of which the two functions read [year], [month],
    [day] and [hour]; the dictionary of [filter_avg_by_day] keeps its keys in
    insertion order, as a Python [dict] does. *)

From Stdlib Require Strings.String Strings.Ascii DecimalString ZArith.

Module Airdata.

Import Stdlib.Strings.String Stdlib.Strings.Ascii.

Inductive exn : Type :=
| IndexError          (* list index out of range *)
| ZeroDivisionError.  (* division by zero *)

Inductive outcome (A : Type) : Type :=
| Returns (a : A)
| Raises (e : exn).
Arguments Returns {A} a.
Arguments Raises {A} e.

Definition and_then {A B : Type} (c : outcome A) (k : A -> outcome B)
    : outcome B :=
  match c with
  | Returns a => k a
  | Raises e => Raises e
  end.

Record datetime : Type := mk_datetime {
  year : Z;
  month : Z;
  day : Z;
  hour : Z
}.

(** [l[i]] for an index [i >= 0]. *)
Definition getitem {A : Type} (l : list A) (i : nat) : outcome A :=
  match nth_error l i with
  | Some a => Returns a
  | None => Raises IndexError
  end.

(** [t.hour >= start and t.hour <= end] *)
Definition in_window (t : datetime) (start_time end_time : Z) : bool :=
  (start_time <=? hour t)%Z && (hour t <=? end_time)%Z.

(** The built-in [sum]: a left fold from 0. *)
Definition py_sum (l : list R) : R := fold_left Rplus l 0.

(** [sum(l) / len(l)] *)
Definition average (l : list R) : outcome R :=
  if Nat.eqb (List.length l) 0 then Raises ZeroDivisionError
  else Returns (py_sum l / INR (List.length l)).

(** The loop of [filter_avg] over the indices [idx], with the list
    [filtered] built so far. *)
Fixpoint filter_loop (idx : list nat) (in_list : list R)
    (in_times : list datetime) (start_time end_time : Z)
    (filtered : list R) : outcome (list R) :=
  match idx with
  | [] => Returns filtered
  | i :: idx' =>
      and_then (getitem in_times i) (fun t =>
      if in_window t start_time end_time
      then and_then (getitem in_list i) (fun x =>
           filter_loop idx' in_list in_times start_time end_time
             (filtered ++ [x]))
      else filter_loop idx' in_list in_times start_time end_time filtered)
  end.

(** [filter_avg(in_list, in_times, start_time, end_time)] *)
Definition filter_avg (in_list : list R) (in_times : list datetime)
    (start_time end_time : Z) : outcome R :=
  and_then (filter_loop (seq 0 (List.length in_list)) in_list in_times
              start_time end_time [])
           average.

(** [str(n)] for an integer. *)
Definition str (n : Z) : string :=
  DecimalString.NilZero.string_of_int (Z.to_int n).

(** [f'{t.year}-{t.month}-{t.day}'] *)
Definition date_key (t : datetime) : string :=
  (str (year t) ++ "-" ++ str (month t) ++ "-" ++ str (day t))%string.

(** A [dict] from date strings, in insertion order. *)
Definition dict (V : Type) : Type := list (string * V).

(** [key in d] *)
Fixpoint dict_mem {V : Type} (key : string) (d : dict V) : bool :=
  match d with
  | [] => false
  | (k, _) :: d' => String.eqb k key || dict_mem key d'
  end.


(** [d[key].append(x)] for a key that is present. *)
Fixpoint dict_append_at (key : string) (x : R) (d : dict (list R))
    : dict (list R) :=
  match d with
  | [] => []
  | (k, l) :: d' =>
      if String.eqb k key then (k, l ++ [x]) :: d'
      else (k, l) :: dict_append_at key x d'
  end.

(** The first loop of [filter_avg_by_day]. *)
Fixpoint by_day_loop (idx : list nat) (in_list : list R)
    (in_times : list datetime) (start_hour end_hour : Z)
    (dates : dict (list R)) : outcome (dict (list R)) :=
  match idx with
  | [] => Returns dates
  | i :: idx' =>
      and_then (getitem in_times i) (fun t =>
      if in_window t start_hour end_hour
      then
        let date := date_key t in
        if negb (dict_mem date dates)
        then and_then (getitem in_list i) (fun x =>
             by_day_loop idx' in_list in_times start_hour end_hour
               (dates ++ [(date, [x])]))
        else and_then (getitem in_list i) (fun x =>
             by_day_loop idx' in_list in_times start_hour end_hour
               (dict_append_at date x dates))
      else by_day_loop idx' in_list in_times start_hour end_hour dates)
  end.

(** The second loop: every list is replaced by its average, key by key. *)
Fixpoint average_values (dates : dict (list R)) : outcome (dict R) :=
  match dates with
  | [] => Returns []
  | (k, l) :: dates' =>
      and_then (average l) (fun v =>
      and_then (average_values dates') (fun rest =>
      Returns ((k, v) :: rest)))
  end.

(** [filter_avg_by_day(in_list, in_times, start_hour, end_hour)] *)
Definition filter_avg_by_day (in_list : list R) (in_times : list datetime)
    (start_hour end_hour : Z) : outcome (dict R) :=
  and_then (by_day_loop (seq 0 (List.length in_list)) in_list in_times
              start_hour end_hour [])
           average_values.

(** The measurements of the window, in order, and those of one day. *)
Definition selected (in_list : list R) (in_times : list datetime)
    (start_time end_time : Z) : list (datetime * R) :=
  filter (fun p => in_window (fst p) start_time end_time)
         (combine in_times in_list).


(** One pass of the first loop of [filter_avg_by_day] on a selected
    measurement, and the dictionary after all of them. *)
Definition add_measurement (dates : dict (list R)) (p : datetime * R)
    : dict (list R) :=
  if negb (dict_mem (date_key (fst p)) dates)
  then dates ++ [(date_key (fst p), [snd p])]
  else dict_append_at (date_key (fst p)) (snd p) dates.

Definition group_by_day (dates : dict (list R)) (sel : list (datetime * R))
    : dict (list R) :=
  fold_left add_measurement sel dates.

(** The mean of a non-empty list of measurements. *)
Definition mean (l : list R) : R := py_sum l / INR (List.length l).

End Airdata.

(** * Lemmas

    ** Sums and altitude gaps *)

Lemma sum_cons (x : R) (a : ndarray) : sum (x :: a) = x + sum a.
Proof. reflexivity. Qed.

Lemma sum_app (a b : ndarray) : sum (a ++ b) = sum a + sum b.
Proof.
  induction a as [|x a IH].
  - cbn [app]. unfold sum at 2. simpl. lra.
  - cbn [app]. rewrite !sum_cons, IH. lra.
Qed.

Lemma sum_scale (c : R) (a : ndarray) :
  sum (map (fun x => x * c) a) = sum a * c.
Proof.
  induction a as [|x a IH].
  - unfold sum. simpl. lra.
  - cbn [map]. rewrite !sum_cons, IH. lra.
Qed.

Lemma sum_nonneg (a : ndarray) : Forall (fun x => 0 <= x) a -> 0 <= sum a.
Proof.
  induction 1 as [|x a Hx _ IH].
  - unfold sum. simpl. lra.
  - rewrite sum_cons. lra.
Qed.

(** Summing the whole extinction array against every gap factors into the
    two one-dimensional sums. *)
Lemma sum2_outer (alpha deltas : ndarray) :
  sum2 (map (fun d => map (fun a => a * d) alpha) deltas)
  = sum alpha * sum deltas.
Proof.
  unfold sum2.
  induction deltas as [|d ds IH].
  - unfold sum. simpl. lra.
  - cbn [map concat]. rewrite sum_app, sum_scale, IH, sum_cons. lra.
Qed.

Lemma arange_gaps (z : ndarray) :
  map (fun i => nth i z 0 - nth (i - 1) z 0) (arange 1 (length z)) = gaps z.
Proof.
  unfold arange.
  induction z as [|x t IH]; [reflexivity|].
  destruct t as [|y l]; [reflexivity|].
  change (length (x :: y :: l) - 1)%nat with (S (length l)).
  change (gaps (x :: y :: l)) with ((y - x) :: gaps (y :: l)).
  cbn [length] in IH. rewrite Nat.sub_succ, Nat.sub_0_r in IH.
  rewrite <- IH.
  cbn [seq map]. f_equal.
  rewrite <- seq_shift, map_map.
  apply map_ext_in. intros i Hi. apply in_seq in Hi.
  destruct i as [|i]; [lia|].
  cbn [nth Nat.sub]. rewrite Nat.sub_0_r. reflexivity.
Qed.

(** The gaps telescope. *)
Lemma sum_gaps (z : ndarray) : sum (gaps z) = last z 0 - hd 0 z.
Proof.
  induction z as [|x t IH]; [unfold sum; simpl; lra|].
  destruct t as [|y l]; [unfold sum; simpl; lra|].
  change (gaps (x :: y :: l)) with ((y - x) :: gaps (y :: l)).
  rewrite sum_cons, IH.
  change (last (x :: y :: l) 0) with (last (y :: l) 0).
  cbn [hd]. lra.
Qed.

Lemma gaps_scale (c : R) (z : ndarray) :
  gaps (map (fun x => x / c) z) = map (fun d => d / c) (gaps z).
Proof.
  induction z as [|x t IH]; [reflexivity|].
  destruct t as [|y l]; [reflexivity|].
  change (map (fun x => x / c) (x :: y :: l))
    with (x / c :: map (fun x => x / c) (y :: l)).
  change (gaps (x :: y :: l)) with ((y - x) :: gaps (y :: l)).
  cbn [map]. rewrite <- IH. cbn [map gaps].
  f_equal. unfold Rdiv. lra.
Qed.

Lemma sum_div (c : R) (a : ndarray) :
  sum (map (fun x => x / c) a) = sum a / c.
Proof. unfold Rdiv. apply sum_scale. Qed.

(** The comprehension of [calc_rayleigh_trans], re-indexed by gap. *)
Lemma int_alpha_gaps (alpha z : ndarray) :
  map (fun i => map (fun a => a * (nth i z 0 - nth (i - 1) z 0)) alpha)
      (arange 1 (length z))
  = map (fun d => map (fun a => a * d) alpha) (gaps z).
Proof. rewrite <- arange_gaps, map_map. reflexivity. Qed.

(** Closed form of the transmission: only the sum of the extinction samples
    and the total altitude span remain. *)
Lemma calc_rayleigh_trans_span (alpha z : ndarray) (kilometers : bool) :
  calc_rayleigh_trans alpha z kilometers
  = exp (-2 * (sum alpha * ((last z 0 - hd 0 z)
                            / (if kilometers then 1000 else 1)))).
Proof.
  unfold calc_rayleigh_trans.
  rewrite int_alpha_gaps, sum2_outer.
  destruct kilometers.
  - rewrite gaps_scale, sum_div, sum_gaps. reflexivity.
  - rewrite sum_gaps. f_equal. lra.
Qed.

(** ** Elementwise operators *)

Lemma zip_with_length (f : R -> R -> R) (a b : ndarray) :
  length a = length b -> length (zip_with f a b) = length a.
Proof.
  intros H. unfold zip_with. rewrite length_map, length_combine, <- H.
  apply Nat.min_id.
Qed.

Lemma nth_zip_with (f : R -> R -> R) (a b : ndarray) (i : nat) :
  length a = length b -> (i < length a)%nat ->
  nth i (zip_with f a b) 0 = f (nth i a 0) (nth i b 0).
Proof.
  revert b i. induction a as [|x a IH]; intros [|y b] i Hlen Hi;
    simpl in *; try lia.
  destruct i as [|i]; [reflexivity|].
  apply IH; lia.
Qed.

Lemma zip_with_map_r (f : R -> R -> R) (g : R -> R) (a b : ndarray) :
  zip_with f a (map g b) = zip_with (fun x y => f x (g y)) a b.
Proof.
  revert b. induction a as [|x a IH]; intros [|y b]; try reflexivity.
  unfold zip_with in *. simpl. f_equal. apply IH.
Qed.

Lemma broadcast_same_length (f : R -> R -> R) (a b : ndarray) :
  length a = length b -> broadcast f a b = Ok (zip_with f a b).
Proof.
  intros H. unfold broadcast. rewrite H, Nat.eqb_refl. reflexivity.
Qed.

Lemma broadcast_mismatch (f : R -> R -> R) (a b : ndarray) :
  length a <> length b -> length a <> 1%nat -> length b <> 1%nat ->
  broadcast f a b = Raise (ValueError_broadcast (length a) (length b)).
Proof.
  intros Hab Ha Hb. unfold broadcast.
  destruct (Nat.eqb_spec (length a) (length b)) as [E|_]; [contradiction|].
  destruct a as [|x [|x' a]]; destruct b as [|y [|y' b]];
    simpl in *; try reflexivity; congruence.
Qed.

(** ** Segment search of the linear interpolant *)

Lemma last_nth_pred (l : ndarray) : last l 0 = nth (length l - 1) l 0.
Proof.
  induction l as [|x l IH]; [reflexivity|].
  destruct l as [|y l]; [reflexivity|].
  change (last (x :: y :: l) 0) with (last (y :: l) 0). rewrite IH.
  cbn [length]. rewrite !Nat.sub_succ, !Nat.sub_0_r. reflexivity.
Qed.

Lemma hd_nth_0 (l : ndarray) : hd 0 l = nth 0 l 0.
Proof. destruct l; reflexivity. Qed.

Lemma searchsorted_le (xs : ndarray) (v : R) :
  (searchsorted xs v <= length xs)%nat.
Proof.
  induction xs as [|x xs IH]; simpl; [lia|].
  destruct (Rlt_dec x v); lia.
Qed.

Lemma searchsorted_below (xs : ndarray) (v : R) (i : nat) :
  (i < searchsorted xs v)%nat -> nth i xs 0 < v.
Proof.
  revert i. induction xs as [|x xs IH]; simpl; intros i Hi; [lia|].
  destruct (Rlt_dec x v) as [Hx|Hx]; [|lia].
  destruct i as [|i]; [exact Hx|]. apply IH. lia.
Qed.

Lemma searchsorted_at (xs : ndarray) (v : R) :
  (searchsorted xs v < length xs)%nat -> v <= nth (searchsorted xs v) xs 0.
Proof.
  induction xs as [|x xs IH]; simpl; intros H; [lia|].
  destruct (Rlt_dec x v) as [Hx|Hx]; [apply IH; lia|lra].
Qed.

Lemma ascending_chain_head (x : R) (l : ndarray) (j : nat) :
  ascending_chain (x :: l) -> (j < length l)%nat -> x < nth j l 0.
Proof.
  revert x j. induction l as [|y l IH]; intros x j Hc Hj; simpl in Hj; [lia|].
  destruct Hc as [Hxy Hc].
  destruct j as [|j]; [exact Hxy|].
  simpl. apply Rlt_trans with y; [exact Hxy|]. apply IH; [exact Hc|lia].
Qed.

Lemma ascending_chain_ascending (l : ndarray) :
  ascending_chain l -> ascending l.
Proof.
  induction l as [|x l IH]; intros Hc i j Hij; simpl in Hij; [lia|].
  destruct j as [|j]; [lia|].
  destruct i as [|i].
  - simpl. apply ascending_chain_head; [exact Hc|lia].
  - simpl. apply IH; [|lia].
    destruct l as [|y l]; [exact I|]. apply Hc.
Qed.

Section Interp1d.

Variables x y : ndarray.
Hypothesis x_ascending : ascending x.

Lemma interp1d_below (v : R) :
  v < hd 0 x -> interp1d_linear x y v = Raise ValueError_below_range.
Proof.
  intros H. unfold interp1d_linear.
  destruct (Rlt_dec v (hd 0 x)); [reflexivity|contradiction].
Qed.

Lemma interp1d_above (v : R) :
  last x 0 < v -> hd 0 x <= last x 0 ->
  interp1d_linear x y v = Raise ValueError_above_range.
Proof.
  intros H Hx. unfold interp1d_linear.
  destruct (Rlt_dec v (hd 0 x)); [lra|].
  destruct (Rlt_dec (last x 0) v); [reflexivity|contradiction].
Qed.

Lemma interp1d_segment (k : nat) (v : R) :
  (S k < length x)%nat ->
  nth k x 0 <= v <= nth (S k) x 0 ->
  interp1d_linear x y v = Ok (on_segment x y k v).
Proof.
  intros Hk [Hlo Hhi].
  assert (H0 : nth 0 x 0 <= nth k x 0).
  { destruct k as [|k]; [lra|]. left. apply x_ascending. lia. }
  assert (Hn : nth (S k) x 0 <= nth (length x - 1) x 0).
  { destruct (Nat.eq_dec (S k) (length x - 1)) as [->|Hne]; [lra|].
    left. apply x_ascending. lia. }
  unfold interp1d_linear. rewrite hd_nth_0, last_nth_pred.
  destruct (Rlt_dec v (nth 0 x 0)); [lra|].
  destruct (Rlt_dec (nth (length x - 1) x 0) v); [lra|].
  pose proof (searchsorted_below x v) as Hbelow.
  pose proof (searchsorted_at x v) as Hat.
  set (s := searchsorted x v) in *.
  assert (Hsk : (k <= s)%nat).
  { destruct (le_lt_dec k s) as [|Hlt]; [assumption|].
    assert (nth s x 0 < nth k x 0) by (apply x_ascending; lia).
    assert (v <= nth s x 0) by (apply Hat; lia). lra. }
  assert (Hsk' : (s <= S k)%nat).
  { destruct (le_lt_dec s (S k)) as [|Hlt]; [assumption|].
    assert (nth (S k) x 0 < v) by (apply Hbelow; lia). lra. }
  f_equal. unfold on_segment, clip.
  destruct (Nat.eq_dec s (S k)) as [Es|Es].
  - rewrite Es.
    replace (Nat.min (length x - 1) (Nat.max (S k) 1)) with (S k) by lia.
    rewrite Nat.sub_succ, Nat.sub_0_r. unfold Rdiv. ring.
  - assert (Ek : s = k) by lia.
    assert (Hv : v = nth k x 0).
    { assert (v <= nth s x 0) by (apply Hat; lia). rewrite Ek in *. lra. }
    rewrite Ek. destruct k as [|k].
    + replace (Nat.min (length x - 1) (Nat.max 0 1)) with 1%nat by lia.
      cbn [Nat.sub]. unfold Rdiv. ring.
    + replace (Nat.min (length x - 1) (Nat.max (S k) 1)) with (S k) by lia.
      rewrite Nat.sub_succ, Nat.sub_0_r. rewrite Hv.
      assert (nth k x 0 < nth (S k) x 0) by (apply x_ascending; lia).
      assert (nth (S k) x 0 < nth (S (S k)) x 0) by (apply x_ascending; lia).
      field. lra.
Qed.

(** Every in-range abscissa lies on some segment. *)
Lemma segment_exists (v : R) :
  (2 <= length x)%nat -> hd 0 x <= v <= last x 0 ->
  exists k, (S k < length x)%nat /\ nth k x 0 <= v <= nth (S k) x 0.
Proof.
  intros Hlen. rewrite hd_nth_0, last_nth_pred. intros [Hlo Hhi].
  pose proof (searchsorted_below x v) as Hbelow.
  pose proof (searchsorted_at x v) as Hat.
  pose proof (searchsorted_le x v) as Hle.
  set (s := searchsorted x v) in *.
  destruct (Nat.eq_dec s 0) as [E0|N0].
  - exists 0%nat. split; [lia|].
    assert (v <= nth 0 x 0) by (rewrite <- E0; apply Hat; lia).
    assert (nth 0 x 0 < nth 1 x 0) by (apply x_ascending; lia). lra.
  - destruct (Nat.eq_dec s (length x)) as [En|Nn].
    + assert (nth (length x - 1) x 0 < v) by (apply Hbelow; lia). lra.
    + exists (s - 1)%nat. replace (S (s - 1)) with s by lia.
      split; [lia|]. split.
      * left. apply Hbelow. lia.
      * apply Hat. lia.
Qed.

End Interp1d.

(** A point of a segment is a convex combination of its end values. *)
Lemma on_segment_between (x y : ndarray) (k : nat) (v m M : R) :
  nth k x 0 < nth (S k) x 0 ->
  nth k x 0 <= v <= nth (S k) x 0 ->
  m <= nth k y 0 <= M -> m <= nth (S k) y 0 <= M ->
  m <= on_segment x y k v <= M.
Proof.
  intros Hx [Hlo Hhi] [Hm0 HM0] [Hm1 HM1]. unfold on_segment.
  set (t := (v - nth k x 0) / (nth (S k) x 0 - nth k x 0)).
  assert (Ht : 0 <= t <= 1).
  { unfold t. split.
    - apply Rmult_le_pos; [lra|]. left. apply Rinv_0_lt_compat. lra.
    - apply Rmult_le_reg_r with (nth (S k) x 0 - nth k x 0); [lra|].
      unfold Rdiv. rewrite Rmult_assoc, Rinv_l by lra. lra. }
  replace ((nth (S k) y 0 - nth k y 0) / (nth (S k) x 0 - nth k x 0)
           * (v - nth k x 0))
    with ((nth (S k) y 0 - nth k y 0) * t) by (unfold t, Rdiv; ring).
  destruct Ht as [Ht0 Ht1]. split; nra.
Qed.

(** ** The depolarization table *)

Lemma wavelengths_ascending : ascending wavelengths.
Proof.
  apply ascending_chain_ascending. unfold wavelengths. simpl.
  repeat split; lra.
Qed.

Lemma wavelengths_length : length wavelengths = 36%nat.
Proof. reflexivity. Qed.

Lemma depolarize_length : length depolarize = 36%nat.
Proof. reflexivity. Qed.

Lemma depolarize_bounds :
  Forall (fun d => 0.0273018 <= d <= 0.0454545) depolarize.
Proof.
  unfold depolarize.
  repeat (apply Forall_cons; [lra|]). apply Forall_nil.
Qed.

Lemma calc_depol_ratio_below (wavelength : R) :
  wavelength < 200 ->
  calc_depol_ratio wavelength = Raise ValueError_below_range.
Proof. intros H. apply interp1d_below. exact H. Qed.

Lemma calc_depol_ratio_above (wavelength : R) :
  1064 < wavelength ->
  calc_depol_ratio wavelength = Raise ValueError_above_range.
Proof.
  intros H. apply interp1d_above; [exact H|].
  unfold wavelengths. simpl. lra.
Qed.

Lemma calc_depol_ratio_segment (k : nat) (wavelength : R) :
  (k < 35)%nat ->
  nth k wavelengths 0 <= wavelength <= nth (S k) wavelengths 0 ->
  calc_depol_ratio wavelength
  = Ok (on_segment wavelengths depolarize k wavelength).
Proof.
  intros Hk H. apply interp1d_segment.
  - exact wavelengths_ascending.
  - rewrite wavelengths_length. lia.
  - exact H.
Qed.

Lemma calc_depol_ratio_tabulated (wavelength : R) :
  tabulated wavelength ->
  exists d, calc_depol_ratio wavelength = Ok d
            /\ 0.0273018 <= d <= 0.0454545.
Proof.
  intros Hw.
  destruct (segment_exists wavelengths wavelengths_ascending wavelength)
    as (k & Hk & Hseg).
  - rewrite wavelengths_length. lia.
  - unfold wavelengths. simpl. exact Hw.
  - rewrite wavelengths_length in Hk.
    exists (on_segment wavelengths depolarize k wavelength). split.
    + apply calc_depol_ratio_segment; [lia|exact Hseg].
    + pose proof depolarize_bounds as Hb.
      rewrite Forall_forall in Hb.
      apply on_segment_between.
      * apply wavelengths_ascending. rewrite wavelengths_length. lia.
      * exact Hseg.
      * apply Hb, nth_In. rewrite depolarize_length. lia.
      * apply Hb, nth_In. rewrite depolarize_length. lia.
Qed.

(** ** Scalar stages *)

Lemma div_ok (a b : R) : b <> 0 -> Py.div a b = Ok (a / b).
Proof.
  intros H. unfold Py.div. destruct (Req_dec_T b 0); [contradiction|reflexivity].
Qed.

Lemma div_zero (a : R) : Py.div a 0 = Raise ZeroDivisionError.
Proof.
  unfold Py.div. destruct (Req_dec_T 0 0) as [_|H]; [reflexivity|].
  exfalso. apply H. reflexivity.
Qed.

Lemma pow_ok (a b : R) : a <> 0 -> Py.pow a b = Ok (Rpower a b).
Proof.
  intros H. unfold Py.pow. destruct (Req_dec_T a 0); [contradiction|reflexivity].
Qed.

(** The Cauchy term [10**6 / wavelength**2] stays below both poles of the
    refractive-index formula on the tabulated domain. *)
Lemma cauchy_term_bounds (wavelength : R) :
  tabulated wavelength ->
  wavelength ^ 2 <> 0 /\ 0 < 10 ^ 6 / wavelength ^ 2 <= 25.
Proof.
  intros [Hlo Hhi].
  assert (Hsq : 40000 <= wavelength ^ 2) by (simpl; nra).
  split; [lra|]. split.
  - apply Rdiv_lt_0_compat; [simpl; lra|lra].
  - apply Rmult_le_reg_r with (wavelength ^ 2); [lra|].
    unfold Rdiv. rewrite Rmult_assoc, Rinv_l by lra.
    simpl (10 ^ 6). lra.
Qed.

Lemma calc_index_refraction_tabulated (wavelength : R) :
  tabulated wavelength ->
  calc_index_refraction wavelength
  = Ok (1.0 + (5791817.0 / (238.0185 - 10 ^ 6 / wavelength ^ 2)
               + 167909.0 / (57.362 - 10 ^ 6 / wavelength ^ 2)) * 1e-8)
  /\ 1 < 1.0 + (5791817.0 / (238.0185 - 10 ^ 6 / wavelength ^ 2)
                + 167909.0 / (57.362 - 10 ^ 6 / wavelength ^ 2)) * 1e-8.
Proof.
  intros Hw. destruct (cauchy_term_bounds wavelength Hw) as (Hsq & Ha0 & Ha).
  set (a := 10 ^ 6 / wavelength ^ 2) in *.
  split.
  - unfold calc_index_refraction.
    rewrite (div_ok _ _ Hsq). cbn [Py.bind]. fold a.
    rewrite !div_ok by lra. reflexivity.
  - assert (0 < 5791817.0 / (238.0185 - a))
      by (apply Rdiv_lt_0_compat; lra).
    assert (0 < 167909.0 / (57.362 - a))
      by (apply Rdiv_lt_0_compat; lra).
    lra.
Qed.

Lemma calc_rayleigh_scat_cross_tabulated (wavelength : R) :
  tabulated wavelength ->
  exists rs, calc_rayleigh_scat_cross wavelength = Ok rs /\ 0 < rs.
Proof.
  intros Hw.
  destruct (calc_index_refraction_tabulated wavelength Hw) as [Hior Hn].
  destruct (calc_depol_ratio_tabulated wavelength Hw) as (d & Hd & Hd0 & Hd1).
  destruct (cauchy_term_bounds wavelength Hw) as (Hsq & _).
  set (n := 1.0 + _) in *.
  assert (Hw4 : 0 < wavelength ^ 4).
  { replace (wavelength ^ 4) with (wavelength ^ 2 * wavelength ^ 2) by ring.
    assert (0 <= wavelength ^ 2) by (simpl; nra). nra. }
  assert (Hden : 0 < wavelength ^ 4 * nstp ^ 2 * (n ^ 2 + 2) ^ 2).
  { apply Rmult_lt_0_compat; [apply Rmult_lt_0_compat|].
    - exact Hw4.
    - unfold nstp. simpl. nra.
    - assert (0 <= n ^ 2) by (simpl; nra). simpl. nra. }
  assert (Hnum : 0 < 1e36 * 24 * PI ^ 3 * (n ^ 2 - 1) ^ 2).
  { assert (HPI : 0 < PI ^ 3).
    { pose proof PI_RGT_0. apply pow_lt. lra. }
    assert (0 < n ^ 2 - 1) by (simpl; nra).
    assert (0 < (n ^ 2 - 1) ^ 2) by (apply pow_lt; assumption).
    apply Rmult_lt_0_compat; [|assumption].
    apply Rmult_lt_0_compat; [lra|assumption]. }
  eexists. split.
  - unfold calc_rayleigh_scat_cross. rewrite Hior. cbn [Py.bind].
    rewrite div_ok by lra. cbn [Py.bind]. rewrite Hd. cbn [Py.bind].
    reflexivity.
  - apply Rmult_lt_0_compat.
    + apply Rdiv_lt_0_compat; assumption.
    + apply Rdiv_lt_0_compat; lra.
Qed.

Lemma calc_rayleigh_scat_cross_outside (wavelength : R) :
  wavelength < 200 \/ 1064 < wavelength ->
  is_ok (calc_rayleigh_scat_cross wavelength) = false.
Proof.
  intros Hw. unfold calc_rayleigh_scat_cross.
  destruct (calc_index_refraction wavelength) as [n|e]; [|reflexivity].
  cbn [Py.bind]. destruct (Py.div _ _) as [rs|e]; [|reflexivity].
  cbn [Py.bind]. destruct Hw as [Hw|Hw].
  - rewrite (calc_depol_ratio_below _ Hw). reflexivity.
  - rewrite (calc_depol_ratio_above _ Hw). reflexivity.
Qed.

(** ** Array stages *)

Lemma nth_map_in (f : R -> R) (l : ndarray) (i : nat) :
  (i < length l)%nat -> nth i (map f l) 0 = f (nth i l 0).
Proof.
  intros Hi. rewrite (nth_indep _ 0 (f 0)) by (rewrite length_map; exact Hi).
  apply map_nth.
Qed.

Lemma calc_number_density_formula (pressure temperature : ndarray)
    (celsius : bool) :
  length pressure = length temperature ->
  calc_number_density pressure temperature celsius
  = Ok (zip_with (fun P T => P / (kB * (if celsius then T + 273.15 else T)))
                 pressure temperature).
Proof.
  intros Hlen. unfold calc_number_density, divide.
  destruct celsius;
    rewrite broadcast_same_length by (rewrite length_map; exact Hlen);
    rewrite zip_with_map_r; reflexivity.
Qed.

Lemma calc_rayleigh_extinction_tabulated (wavelength : R) (ND : ndarray) :
  tabulated wavelength ->
  exists rs, 0 < rs
    /\ calc_rayleigh_extinction wavelength ND
       = Ok (map (fun n => n * rs * 1000) ND).
Proof.
  intros Hw.
  destruct (calc_rayleigh_scat_cross_tabulated wavelength Hw) as (rs & Hrs & Hpos).
  exists rs. split; [exact Hpos|].
  unfold calc_rayleigh_extinction. rewrite Hrs. reflexivity.
Qed.

Lemma calc_rayleigh_extinction_outside (wavelength : R) (ND : ndarray) :
  wavelength < 200 \/ 1064 < wavelength ->
  is_ok (calc_rayleigh_extinction wavelength ND) = false.
Proof.
  intros Hw. unfold calc_rayleigh_extinction.
  pose proof (calc_rayleigh_scat_cross_outside wavelength Hw) as H.
  destruct (calc_rayleigh_scat_cross wavelength); [discriminate|reflexivity].
Qed.

(** Whether two one-dimensional operands broadcast depends on their lengths
    only. *)
Lemma broadcast_shape_only (f g : R -> R -> R) (a b b' : ndarray) :
  length b = length b' ->
  match broadcast f a b, broadcast g a b' with
  | Ok _, Ok _ => True
  | Raise e, Raise e' => e = e'
  | _, _ => False
  end.
Proof.
  intros Hb. unfold broadcast. rewrite <- Hb.
  destruct (Nat.eqb (length a) (length b)); [exact I|].
  destruct a as [|x [|x' a]]; destruct b as [|y [|y' b]];
    destruct b' as [|z [|z' b']]; simpl in *; try exact I; try discriminate;
    try (rewrite Hb); reflexivity.
Qed.

Lemma calc_beta_rayleigh_ok (wavelength : R) (P T : ndarray)
    (nanometers : bool) :
  length P = length T ->
  (if nanometers then wavelength * 1e-9 else wavelength) <> 0 ->
  calc_beta_rayleigh wavelength P T nanometers
  = Ok (map (fun x => 2.938e-32 * x
                      * Rpower (if nanometers then wavelength * 1e-9
                                else wavelength) (-4.0117))
            (zip_with Rdiv P T)).
Proof.
  intros Hlen Hw. unfold calc_beta_rayleigh, divide.
  rewrite broadcast_same_length by exact Hlen. cbn [Py.bind].
  rewrite pow_ok by exact Hw. reflexivity.
Qed.

(** With a tabulated wavelength in nanometres and co-indexed pressure and
    temperature the pipeline runs to the end, whatever the altitude array. *)
Lemma calc_rayleigh_beta_dot_trans_ok (wavelength : R)
    (pressure temperature altitude : ndarray) (kilometers celsius : bool) :
  tabulated wavelength ->
  length pressure = length temperature ->
  exists out,
    calc_rayleigh_beta_dot_trans wavelength pressure temperature altitude
      true kilometers celsius = Ok out
    /\ length (beta out) = length pressure
    /\ length (numberDensity out) = length pressure
    /\ length (alpha out) = length pressure
    /\ length (beta_dot_trans out) = length pressure.
Proof.
  intros Hw Hlen.
  destruct (calc_rayleigh_extinction_tabulated wavelength
              (zip_with (fun P T => P / (kB * (if celsius then T + 273.15
                                               else T)))
                        pressure temperature) Hw) as (rs & _ & Hext).
  eexists. split.
  - unfold calc_rayleigh_beta_dot_trans.
    rewrite calc_beta_rayleigh_ok; [|exact Hlen|destruct Hw; lra].
    cbn [Py.bind]. rewrite calc_number_density_formula by exact Hlen.
    cbn [Py.bind]. rewrite Hext. cbn [Py.bind]. reflexivity.
  - cbn [beta numberDensity alpha beta_dot_trans].
    rewrite !length_map, !zip_with_length by exact Hlen. repeat split.
Qed.

Lemma calc_rayleigh_beta_dot_trans_outside (wavelength : R)
    (pressure temperature altitude : ndarray)
    (nanometers kilometers celsius : bool) :
  wavelength < 200 \/ 1064 < wavelength ->
  is_ok (calc_rayleigh_beta_dot_trans wavelength pressure temperature altitude
           nanometers kilometers celsius) = false.
Proof.
  intros Hw. unfold calc_rayleigh_beta_dot_trans.
  destruct (calc_beta_rayleigh _ _ _ _) as [b|e]; [|reflexivity].
  cbn [Py.bind]. destruct (calc_number_density _ _ _) as [nd|e]; [|reflexivity].
  cbn [Py.bind].
  pose proof (calc_rayleigh_extinction_outside wavelength nd Hw) as H.
  destruct (calc_rayleigh_extinction wavelength nd); [discriminate|reflexivity].
Qed.

(** A wavelength expressed in metres (any value in (0, 1)) passes the
    refractive-index stage and is then refused by the table lookup, which
    reads it as nanometres. *)
Lemma calc_rayleigh_scat_cross_metres (wavelength : R) :
  0 < wavelength < 1 ->
  calc_rayleigh_scat_cross wavelength = Raise ValueError_below_range.
Proof.
  intros [H0 H1].
  assert (Hsq : 0 < wavelength ^ 2 < 1) by (simpl; nra).
  assert (Ha : 10 ^ 6 < 10 ^ 6 / wavelength ^ 2).
  { apply Rmult_lt_reg_r with (wavelength ^ 2); [lra|].
    unfold Rdiv. rewrite Rmult_assoc, Rinv_l by lra.
    simpl (10 ^ 6). nra. }
  simpl (10 ^ 6) in Ha at 1.
  unfold calc_rayleigh_scat_cross, calc_index_refraction.
  rewrite (div_ok (10 ^ 6) (wavelength ^ 2)) by lra. cbn [Py.bind].
  rewrite !div_ok by lra. cbn [Py.bind].
  set (n := 1.0 + _).
  assert (Hden : 0 < wavelength ^ 4 * nstp ^ 2 * (n ^ 2 + 2) ^ 2).
  { apply Rmult_lt_0_compat; [apply Rmult_lt_0_compat|].
    - replace (wavelength ^ 4) with (wavelength ^ 2 * wavelength ^ 2) by ring.
      nra.
    - unfold nstp. simpl. nra.
    - assert (0 <= n ^ 2) by (simpl; nra). simpl. nra. }
  rewrite div_ok by lra. cbn [Py.bind].
  rewrite calc_depol_ratio_below by lra. reflexivity.
Qed.

Lemma calc_rayleigh_beta_dot_trans_metres (wavelength : R)
    (pressure temperature altitude : ndarray) (kilometers celsius : bool) :
  0 < wavelength < 1 ->
  length pressure = length temperature ->
  calc_rayleigh_beta_dot_trans wavelength pressure temperature altitude
    false kilometers celsius = Raise ValueError_below_range.
Proof.
  intros Hw Hlen. unfold calc_rayleigh_beta_dot_trans.
  rewrite calc_beta_rayleigh_ok; [|exact Hlen|lra]. cbn [Py.bind].
  rewrite calc_number_density_formula by exact Hlen. cbn [Py.bind].
  unfold calc_rayleigh_extinction.
  rewrite calc_rayleigh_scat_cross_metres by exact Hw. reflexivity.
Qed.

Lemma ascending_hd_le_last (z : ndarray) : ascending z -> hd 0 z <= last z 0.
Proof.
  intros Hz. rewrite hd_nth_0, last_nth_pred.
  destruct (Nat.eq_dec (length z - 1) 0) as [->|Hne]; [lra|].
  left. apply Hz. lia.
Qed.

Lemma short_profile_span (z : ndarray) :
  (length z < 2)%nat -> last z 0 - hd 0 z = 0.
Proof.
  destruct z as [|x [|y z]]; simpl; intros H; try lra. lia.
Qed.

Lemma exp_nonpos_le_1 (x : R) : x <= 0 -> 0 < exp x <= 1.
Proof.
  intros Hx. split; [apply exp_pos|].
  destruct Hx as [Hx|Hx]; [|rewrite Hx, exp_0; lra].
  left. rewrite <- exp_0. apply exp_increasing. exact Hx.
Qed.

(** Without the ascending order the transmission can exceed 1: the span
    [z[-1] - z[0]] is then negative. *)
Lemma calc_rayleigh_trans_descending :
  1 < calc_rayleigh_trans [0.012] [1; 0] false.
Proof.
  rewrite calc_rayleigh_trans_span.
  pose proof (exp_increasing 0 0.024) as H. rewrite exp_0 in H.
  replace (-2 * (sum [0.012] * ((last [1; 0] 0 - hd 0 [1; 0]) / 1)))
    with 0.024 by (unfold sum; simpl; lra).
  apply H. lra.
Qed.

Lemma ascending_index_order (z : ndarray) (i j : nat) :
  ascending z -> (i < length z)%nat -> (j < length z)%nat ->
  nth i z 0 < nth j z 0 -> (i < j)%nat.
Proof.
  intros Hz Hi Hj Hlt.
  destruct (lt_eq_lt_dec i j) as [[H|H]|H]; [exact H| |].
  - subst. lra.
  - assert (nth j z 0 < nth i z 0) by (apply Hz; lia). lra.
Qed.

(** * Properties of the specification *)

(** C1.  The specification's step 8 pairs each extinction sample with the
    altitude gap of its own index, [exp(-2 * sum alpha[i] * (z[i] - z[i-1]))].
    The source multiplies the whole extinction array by every gap.  On the
    three-sample profile [alpha = [0.012, 0.011, 0.010]] km^-1,
    [z = [0, 1, 2]] km ([kilometers=False]) the source returns [exp(-0.132)]
    where the per-sample rule gives [exp(-0.042)]. *)
Theorem C1_pairing_divergence :
  calc_rayleigh_trans [0.012; 0.011; 0.010] [0; 1; 2] false = exp (-0.132)
  /\ rectangle_rule_trans [0.012; 0.011; 0.010] [0; 1; 2] = exp (-0.042)
  /\ calc_rayleigh_trans [0.012; 0.011; 0.010] [0; 1; 2] false
     <> rectangle_rule_trans [0.012; 0.011; 0.010] [0; 1; 2].
Proof.
  assert (Hcode : calc_rayleigh_trans [0.012; 0.011; 0.010] [0; 1; 2] false
                  = exp (-0.132)).
  { rewrite calc_rayleigh_trans_span. unfold sum. simpl. f_equal. lra. }
  assert (Hspec : rectangle_rule_trans [0.012; 0.011; 0.010] [0; 1; 2]
                  = exp (-0.042)).
  { unfold rectangle_rule_trans, arange, sum. simpl. f_equal. lra. }
  repeat split; [exact Hcode|exact Hspec|].
  rewrite Hcode, Hspec. intros H. apply exp_inv in H. lra.
Qed.

(** C4.  With [kilometers=True] and at least two altitude samples,
    [calc_rayleigh_trans] returns
    [exp(-2 * (sum_j alpha[j]) * (z[m-1] - z[0]) / 1000)]: the interior
    altitude samples telescope away. *)
Theorem C4_transmission_telescopes (alpha z : ndarray) :
  (2 <= length z)%nat ->
  calc_rayleigh_trans alpha z true
  = exp (-2 * sum alpha * (nth (length z - 1) z 0 - nth 0 z 0) / 1000).
Proof.
  intros _. rewrite calc_rayleigh_trans_span, last_nth_pred, hd_nth_0.
  f_equal. lra.
Qed.

Lemma C4_transmission_telescopes_witness :
  (2 <= length [0; 500; 1500])%nat
  /\ calc_rayleigh_trans [0.012; 0.011] [0; 500; 1500] true
     = exp (-2 * sum [0.012; 0.011]
            * (nth (length [0; 500; 1500] - 1) [0; 500; 1500] 0
               - nth 0 [0; 500; 1500] 0) / 1000).
Proof.
  split; [simpl; lia|].
  apply (C4_transmission_telescopes [0.012; 0.011] [0; 500; 1500]).
  simpl; lia.
Defined.

(** C7 (amended).  For non-negative extinction samples and an altitude
    profile whose last sample is not below its first (every ascending profile
    is one) the transmission lies in [0, 1]; with fewer than two altitude
    samples it is exactly 1.  The lower bound is not strict: the exact value
    is positive, but [np.exp] rounds it to 0.0 once the optical depth is
    large. *)
Theorem C7_transmission_bounds (alpha z : ndarray) (kilometers : bool) :
  (Forall (fun a => 0 <= a) alpha ->
   nth 0 z 0 <= nth (length z - 1) z 0 ->
   0 <= calc_rayleigh_trans alpha z kilometers <= 1)
  /\ ((length z < 2)%nat -> calc_rayleigh_trans alpha z kilometers = 1).
Proof.
  rewrite calc_rayleigh_trans_span. split.
  - intros Ha Hz. rewrite <- hd_nth_0, <- last_nth_pred in Hz.
    pose proof (sum_nonneg alpha Ha) as Hs.
    assert (0 <= (last z 0 - hd 0 z) / (if kilometers then 1000 else 1)).
    { apply Rmult_le_pos; [lra|]. left. apply Rinv_0_lt_compat.
      destruct kilometers; lra. }
    assert (Hexp : 0 < exp (-2 * (sum alpha
                     * ((last z 0 - hd 0 z)
                        / (if kilometers then 1000 else 1)))) <= 1)
      by (apply exp_nonpos_le_1; nra).
    lra.
  - intros Hlen. rewrite (short_profile_span z Hlen).
    unfold Rdiv. rewrite Rmult_0_l, Rmult_0_r, Rmult_0_r. apply exp_0.
Qed.

Lemma C7_transmission_bounds_witness :
  (Forall (fun a => 0 <= a) [0.012; 0.011]
   /\ nth 0 [0; 500; 1500] 0
      <= nth (length [0; 500; 1500] - 1) [0; 500; 1500] 0
   /\ 0 <= calc_rayleigh_trans [0.012; 0.011] [0; 500; 1500] true <= 1)
  /\ ((length [250] < 2)%nat
      /\ calc_rayleigh_trans [0.012; 0.011] [250] true = 1).
Proof.
  assert (Ha : Forall (fun a => 0 <= a) [0.012; 0.011]).
  { repeat (apply Forall_cons; [lra|]). apply Forall_nil. }
  assert (Hz : nth 0 [0; 500; 1500] 0
               <= nth (length [0; 500; 1500] - 1) [0; 500; 1500] 0)
    by (simpl; lra).
  split.
  - split; [exact Ha|]. split; [exact Hz|].
    exact (proj1 (C7_transmission_bounds [0.012; 0.011] [0; 500; 1500] true)
             Ha Hz).
  - split; [simpl; lia|].
    apply (proj2 (C7_transmission_bounds [0.012; 0.011] [250] true)).
    simpl; lia.
Defined.

Lemma C7_counterexample :
  Forall (fun a => 0 <= a) [0.5]
  /\ calc_rayleigh_trans [0.5] [2; 0] false = exp 2
  /\ ~ (0 < calc_rayleigh_trans [0.5] [2; 0] false <= 1).
Proof.
  assert (E : calc_rayleigh_trans [0.5] [2; 0] false = exp 2).
  { rewrite calc_rayleigh_trans_span. unfold sum. simpl. f_equal. lra. }
  split; [repeat (apply Forall_cons; [lra|]); apply Forall_nil|].
  split; [exact E|].
  rewrite E. intros [_ H].
  pose proof (exp_increasing 0 2) as Hinc. rewrite exp_0 in Hinc. lra.
Qed.

(** C6.  A wavelength outside [200, 1064] nm makes [calc_depol_ratio] raise
    [ValueError] (below or above the interpolation range); no value is
    extrapolated, and every caller on the pipeline ends in an exception too. *)
Theorem C6_out_of_domain_raises (wavelength : R) :
  wavelength < 200 \/ 1064 < wavelength ->
  calc_depol_ratio wavelength
  = Raise (if Rlt_dec wavelength 200 then ValueError_below_range
           else ValueError_above_range)
  /\ is_ok (calc_rayleigh_scat_cross wavelength) = false
  /\ (forall ND, is_ok (calc_rayleigh_extinction wavelength ND) = false)
  /\ (forall P T z nanometers kilometers celsius,
        is_ok (calc_rayleigh_beta_dot_trans wavelength P T z
                 nanometers kilometers celsius) = false).
Proof.
  intros Hw. split; [|split; [|split]].
  - destruct (Rlt_dec wavelength 200) as [Hlt|Hge].
    + apply calc_depol_ratio_below. exact Hlt.
    + apply calc_depol_ratio_above. lra.
  - apply calc_rayleigh_scat_cross_outside. exact Hw.
  - intros ND. apply calc_rayleigh_extinction_outside. exact Hw.
  - intros. apply calc_rayleigh_beta_dot_trans_outside. exact Hw.
Qed.

Lemma C6_out_of_domain_raises_witness :
  (1550 < 200 \/ 1064 < 1550)
  /\ calc_depol_ratio 1550 = Raise ValueError_above_range.
Proof.
  assert (H : 1550 < 200 \/ 1064 < 1550) by (right; lra).
  split; [exact H|].
  pose proof (proj1 (C6_out_of_domain_raises 1550 H)) as E.
  destruct (Rlt_dec 1550 200) as [Hlt|_]; [lra|exact E].
Defined.

(** C8.  [calc_depol_ratio] interpolates linearly in the embedded 36-point
    table: on every segment [[x_k, x_(k+1)]] it returns the value of the
    chord; at the tabulated end point 1064 nm it returns 0.0273018, and at
    532 nm the value interpolated between the rows 500 nm -> 0.028425 and
    550 nm -> 0.028425. *)
Theorem C8_depol_table_interpolation :
  length wavelengths = 36%nat /\ length depolarize = 36%nat
  /\ (forall k wavelength, (k < 35)%nat ->
        nth k wavelengths 0 <= wavelength <= nth (S k) wavelengths 0 ->
        calc_depol_ratio wavelength
        = Ok (nth k depolarize 0
              + (nth (S k) depolarize 0 - nth k depolarize 0)
                / (nth (S k) wavelengths 0 - nth k wavelengths 0)
                * (wavelength - nth k wavelengths 0)))
  /\ calc_depol_ratio 1064 = Ok 0.0273018
  /\ nth 25 wavelengths 0 = 500 /\ nth 26 wavelengths 0 = 550
  /\ nth 25 depolarize 0 = 0.028425 /\ nth 26 depolarize 0 = 0.028425
  /\ calc_depol_ratio 532
     = Ok (0.028425 + (0.028425 - 0.028425) / (550 - 500) * (532 - 500))
  /\ calc_depol_ratio 532 = Ok 0.028425.
Proof.
  split; [reflexivity|]. split; [reflexivity|]. split.
  { intros k w Hk Hseg. apply calc_depol_ratio_segment; assumption. }
  split.
  { rewrite (calc_depol_ratio_segment 34) by (simpl; lia || lra).
    unfold on_segment. simpl. f_equal. lra. }
  do 4 (split; [reflexivity|]).
  assert (H : calc_depol_ratio 532
              = Ok (0.028425 + (0.028425 - 0.028425) / (550 - 500)
                               * (532 - 500))).
  { rewrite (calc_depol_ratio_segment 25) by (simpl; lia || lra).
    reflexivity. }
  split; [exact H|]. rewrite H. f_equal. lra.
Qed.

Lemma C8_depol_table_interpolation_witness :
  (3 < 35)%nat
  /\ (nth 3 wavelengths 0 <= 217 <= nth 4 wavelengths 0)
  /\ calc_depol_ratio 217
     = Ok (nth 3 depolarize 0
           + (nth 4 depolarize 0 - nth 3 depolarize 0)
             / (nth 4 wavelengths 0 - nth 3 wavelengths 0)
             * (217 - nth 3 wavelengths 0)).
Proof.
  assert (Hk : (3 < 35)%nat) by lia.
  assert (Hseg : nth 3 wavelengths 0 <= 217 <= nth 4 wavelengths 0)
    by (simpl; lra).
  split; [exact Hk|]. split; [exact Hseg|].
  exact (proj1 (proj2 (proj2 C8_depol_table_interpolation)) 3%nat 217 Hk Hseg).
Defined.

(** C9.  For co-indexed pressure and temperature, [calc_number_density]
    returns, sample by sample, [P / (kB * T)] with [kB = 1.38064852e-23],
    where [T] is the input plus 273.15 under [celsius=True] and the input
    itself under [celsius=False]. *)
Theorem C9_number_density (pressure temperature : ndarray) (celsius : bool) :
  length pressure = length temperature ->
  kB = 1.38064852e-23
  /\ exists ND,
       calc_number_density pressure temperature celsius = Ok ND
       /\ length ND = length pressure
       /\ forall i, (i < length pressure)%nat ->
            nth i ND 0
            = nth i pressure 0
              / (kB * (if celsius then nth i temperature 0 + 273.15
                       else nth i temperature 0)).
Proof.
  intros Hlen. split; [reflexivity|].
  eexists. split; [apply calc_number_density_formula; exact Hlen|].
  split; [apply zip_with_length; exact Hlen|].
  intros i Hi. rewrite nth_zip_with by assumption. reflexivity.
Qed.

Lemma C9_number_density_witness :
  length [101325; 90000] = length [15; 10]
  /\ exists ND,
       calc_number_density [101325; 90000] [15; 10] true = Ok ND
       /\ nth 0 ND 0 = 101325 / (kB * (15 + 273.15)).
Proof.
  split; [reflexivity|].
  destruct (C9_number_density [101325; 90000] [15; 10] true eq_refl)
    as (_ & ND & HND & _ & Hnth).
  exists ND. split; [exact HND|].
  apply (Hnth 0%nat). simpl; lia.
Defined.

(** A positive scale factor keeps the order of the samples. *)
Lemma scaled_profile_monotone (z P x : ndarray) (c : R) :
  0 < c -> ascending z -> length z = length P -> length x = length P ->
  (forall i, (i < length P)%nat -> nth i x 0 = nth i P 0 * c) ->
  (descending P -> decreasing_with_altitude z x)
  /\ (nonincreasing P -> nonincreasing_with_altitude z x).
Proof.
  intros Hc Hz Hlz Hlx Hx. split; intros HP i j Hi Hj Hlt;
    rewrite Hlx in Hi, Hj;
    assert (Hij : (i < j)%nat)
      by (apply (ascending_index_order z); [exact Hz|lia|lia|exact Hlt]);
    rewrite !Hx by lia;
    specialize (HP i j (conj Hij Hj)); nra.
Qed.

(** C10.  With constant positive kelvin temperature, an ascending altitude
    grid and a tabulated wavelength, [calc_number_density] and
    [calc_rayleigh_extinction] return profiles on that grid (one sample per
    pressure sample) that fall with altitude whenever the pressure does
    (strictly for strictly falling pressure, weakly for weakly falling
    pressure). *)
Theorem C10_monotone_profiles (wavelength T0 : R) (pressure altitude : ndarray) :
  tabulated wavelength -> 0 < T0 ->
  length altitude = length pressure -> ascending altitude ->
  exists ND ext,
    calc_number_density pressure (repeat T0 (length pressure)) false = Ok ND
    /\ calc_rayleigh_extinction wavelength ND = Ok ext
    /\ length ND = length pressure
    /\ length ext = length pressure
    /\ (descending pressure ->
        decreasing_with_altitude altitude ND
        /\ decreasing_with_altitude altitude ext)
    /\ (nonincreasing pressure ->
        nonincreasing_with_altitude altitude ND
        /\ nonincreasing_with_altitude altitude ext).
Proof.
  intros Hw HT Hlz Hz.
  assert (Hlen : length pressure = length (repeat T0 (length pressure)))
    by (rewrite repeat_length; reflexivity).
  set (ND := zip_with (fun P T => P / (kB * T)) pressure
                      (repeat T0 (length pressure))).
  assert (HlND : length ND = length pressure)
    by (apply zip_with_length; exact Hlen).
  assert (HND : forall i, (i < length pressure)%nat ->
                  nth i ND 0 = nth i pressure 0 * / (kB * T0)).
  { intros i Hi. unfold ND. rewrite nth_zip_with by assumption.
    rewrite nth_repeat_lt by exact Hi. reflexivity. }
  destruct (calc_rayleigh_extinction_tabulated wavelength ND Hw)
    as (rs & Hrs & Hext).
  assert (HkT : 0 < / (kB * T0)).
  { apply Rinv_0_lt_compat. unfold kB. nra. }
  assert (Hext_nth : forall i, (i < length pressure)%nat ->
            nth i (map (fun n => n * rs * 1000) ND) 0
            = nth i pressure 0 * (/ (kB * T0) * rs * 1000)).
  { intros i Hi. rewrite nth_map_in by (rewrite HlND; exact Hi).
    rewrite HND by exact Hi. ring. }
  destruct (scaled_profile_monotone altitude pressure ND (/ (kB * T0))
              HkT Hz Hlz HlND HND) as [Hs Hw'].
  destruct (scaled_profile_monotone altitude pressure
              (map (fun n => n * rs * 1000) ND) (/ (kB * T0) * rs * 1000))
    as [Hs' Hw'']; try assumption.
  { assert (0 < / (kB * T0) * rs) by (apply Rmult_lt_0_compat; assumption).
    lra. }
  { rewrite length_map. exact HlND. }
  exists ND, (map (fun n => n * rs * 1000) ND).
  split; [apply (calc_number_density_formula pressure _ false); exact Hlen|].
  split; [exact Hext|].
  split; [exact HlND|].
  split; [rewrite length_map; exact HlND|].
  split; intros HP; split; auto.
Qed.

Lemma C10_monotone_profiles_witness :
  tabulated 1064 /\ 0 < 250
  /\ length [0; 1000; 2000] = length [101325; 90000; 80000]
  /\ ascending [0; 1000; 2000]
  /\ descending [101325; 90000; 80000]
  /\ exists ND ext,
       calc_number_density [101325; 90000; 80000] (repeat 250 3) false = Ok ND
       /\ calc_rayleigh_extinction 1064 ND = Ok ext
       /\ length ND = 3%nat /\ length ext = 3%nat
       /\ decreasing_with_altitude [0; 1000; 2000] ND
       /\ decreasing_with_altitude [0; 1000; 2000] ext.
Proof.
  assert (Hw : tabulated 1064) by (unfold tabulated; lra).
  assert (HT : 0 < 250) by lra.
  assert (Hz : ascending [0; 1000; 2000]).
  { apply ascending_chain_ascending. simpl. repeat split; lra. }
  assert (HP : descending [101325; 90000; 80000]).
  { intros i j Hij. simpl in Hij.
    destruct i as [|[|[|i]]]; destruct j as [|[|[|j]]]; simpl; try lia; lra. }
  split; [exact Hw|]. split; [exact HT|]. split; [reflexivity|].
  split; [exact Hz|]. split; [exact HP|].
  destruct (C10_monotone_profiles 1064 250 [101325; 90000; 80000]
              [0; 1000; 2000] Hw HT eq_refl Hz)
    as (ND & ext & HND & Hext & HlND & Hlext & Hstrict & _).
  exists ND, ext. split; [exact HND|]. split; [exact Hext|].
  split; [exact HlND|]. split; [exact Hlext|].
  exact (Hstrict HP).
Defined.

(** C2.  The same light, 1064 nm, given once in nanometres with
    [nanometers=True] and once in metres with [nanometers=False]: the first
    call returns the five outputs, the second raises, because only
    [calc_beta_rayleigh] receives the flag and [calc_rayleigh_extinction]
    reads the raw number as nanometres. *)
Theorem C2_unit_flag_divergence :
  (exists out,
     calc_rayleigh_beta_dot_trans 1064 [101325; 90000; 80000]
       [288.15; 280; 270] [0; 1; 2] true false false = Ok out)
  /\ calc_rayleigh_beta_dot_trans 1.064e-6 [101325; 90000; 80000]
       [288.15; 280; 270] [0; 1; 2] false false false
     = Raise ValueError_below_range.
Proof.
  split.
  - destruct (calc_rayleigh_beta_dot_trans_ok 1064 [101325; 90000; 80000]
                [288.15; 280; 270] [0; 1; 2] false false) as (out & H & _).
    + unfold tabulated; lra.
    + reflexivity.
    + exists out. exact H.
  - apply calc_rayleigh_beta_dot_trans_metres; [lra|reflexivity].
Qed.

(** C3.  Unit normalisation as the source applies it: under [celsius=True]
    the number density, and the extinction and transmission computed from it,
    are those of the kelvin profile (input + 273.15); under
    [kilometers=True] the transmission stage uses the altitude divided by
    1000, the unit of the km^-1 extinction coefficient. *)
Theorem C3_unit_normalization (wavelength : R)
    (pressure temperature altitude : ndarray)
    (nanometers kilometers celsius : bool) :
  map_result (fun o => (numberDensity o, alpha o, rayleigh_trans o))
    (calc_rayleigh_beta_dot_trans wavelength pressure temperature altitude
       nanometers kilometers true)
  = map_result (fun o => (numberDensity o, alpha o, rayleigh_trans o))
      (calc_rayleigh_beta_dot_trans wavelength pressure
         (map (fun t => t + 273.15) temperature) altitude
         nanometers kilometers false)
  /\ calc_rayleigh_beta_dot_trans wavelength pressure temperature altitude
       nanometers true celsius
     = calc_rayleigh_beta_dot_trans wavelength pressure temperature
         (map (fun z => z / 1000) altitude) nanometers false celsius.
Proof.
  split.
  - unfold calc_rayleigh_beta_dot_trans, calc_beta_rayleigh, divide.
    assert (HND : calc_number_density pressure temperature true
                  = calc_number_density pressure
                      (map (fun t => t + 273.15) temperature) false).
    { unfold calc_number_density. rewrite map_map. reflexivity. }
    rewrite <- HND.
    pose proof (broadcast_shape_only Rdiv Rdiv pressure temperature
                  (map (fun t => t + 273.15) temperature)) as Hshape.
    rewrite length_map in Hshape. specialize (Hshape eq_refl).
    destruct (broadcast Rdiv pressure temperature) as [q|e];
      destruct (broadcast Rdiv pressure _) as [q'|e'];
      try contradiction.
    + cbn [Py.bind]. destruct (Py.pow _ _) as [w|e]; [|reflexivity].
      cbn [Py.bind].
      destruct (calc_number_density pressure temperature true) as [nd|e];
        [|reflexivity].
      cbn [Py.bind].
      destruct (calc_rayleigh_extinction wavelength nd) as [ext|e];
        reflexivity.
    + rewrite Hshape. reflexivity.
  - reflexivity.
Qed.

Lemma C3_counterexample :
  (exists out,
     calc_rayleigh_beta_dot_trans 532 [101325] [15] [0] true true true = Ok out
     /\ beta out
        <> [2.938e-32 * (101325 / (15 + 273.15))
            * Rpower (532 * 1e-9) (-4.0117)])
  /\ calc_rayleigh_trans [0.012] [0; 1] true
     <> calc_rayleigh_trans [0.012] (map (fun z => z * 1000) [0; 1]) false.
Proof.
  split.
  - destruct (calc_rayleigh_extinction_tabulated 532
                (zip_with (fun P T => P / (kB * (T + 273.15))) [101325] [15]))
      as (rs & _ & Hext); [unfold tabulated; lra|].
    eexists. split.
    + unfold calc_rayleigh_beta_dot_trans.
      rewrite calc_beta_rayleigh_ok by (reflexivity || lra). cbn [Py.bind].
      rewrite calc_number_density_formula by reflexivity. cbn [Py.bind].
      rewrite Hext. cbn [Py.bind]. reflexivity.
    + cbn [beta zip_with combine map fst snd]. intros H.
      injection H as H.
      assert (Hp : 0 < Rpower (532 * 1e-9) (-4.0117))
        by (unfold Rpower; apply exp_pos).
      apply Rmult_eq_reg_r in H; [|lra].
      lra.
  - rewrite !calc_rayleigh_trans_span. intros H. apply exp_inv in H.
    unfold sum in H. simpl in H. lra.
Qed.

Lemma calc_rayleigh_beta_dot_trans_empty (wavelength : R)
    (nanometers kilometers celsius : bool) :
  tabulated wavelength ->
  calc_rayleigh_beta_dot_trans wavelength [] [] [] nanometers kilometers
    celsius = Ok (mk_profile [] [] [] [] 1).
Proof.
  intros Hw.
  destruct (calc_rayleigh_extinction_tabulated wavelength [] Hw)
    as (rs & _ & Hext).
  unfold calc_rayleigh_beta_dot_trans.
  rewrite calc_beta_rayleigh_ok;
    [|reflexivity|destruct Hw; destruct nanometers; lra].
  cbn [Py.bind]. rewrite calc_number_density_formula by reflexivity.
  cbn [Py.bind zip_with combine map]. rewrite Hext. cbn [Py.bind map].
  f_equal. f_equal.
  rewrite calc_rayleigh_trans_span. rewrite <- exp_0. f_equal.
  unfold sum. simpl. lra.
Qed.

(** C5.  Shapes as the source handles them: an empty profile (with a
    tabulated wavelength) yields four empty arrays and transmission 1, no
    exception; pressure and temperature of different lengths, neither of
    length one, make the first array operation raise numpy's broadcast
    [ValueError]; the length of the altitude array is never compared with
    the others. *)
Theorem C5_shape_handling :
  (forall wavelength nanometers kilometers celsius,
     tabulated wavelength ->
     calc_rayleigh_beta_dot_trans wavelength [] [] [] nanometers kilometers
       celsius = Ok (mk_profile [] [] [] [] 1))
  /\ (forall wavelength P T z nanometers kilometers celsius,
        length P <> length T -> length P <> 1%nat -> length T <> 1%nat ->
        calc_rayleigh_beta_dot_trans wavelength P T z nanometers kilometers
          celsius = Raise (ValueError_broadcast (length P) (length T)))
  /\ (forall wavelength P T z kilometers celsius,
        tabulated wavelength -> length P = length T ->
        is_ok (calc_rayleigh_beta_dot_trans wavelength P T z true kilometers
                 celsius) = true).
Proof.
  split; [|split].
  - intros. apply calc_rayleigh_beta_dot_trans_empty. assumption.
  - intros w P T z nm km cel Hne HP HT.
    unfold calc_rayleigh_beta_dot_trans, calc_beta_rayleigh, divide.
    rewrite broadcast_mismatch by assumption. reflexivity.
  - intros w P T z km cel Hw Hlen.
    destruct (calc_rayleigh_beta_dot_trans_ok w P T z km cel Hw Hlen)
      as (out & H & _).
    rewrite H. reflexivity.
Qed.

Lemma C5_shape_handling_witness :
  tabulated 532
  /\ calc_rayleigh_beta_dot_trans 532 [] [] [] true true true
     = Ok (mk_profile [] [] [] [] 1)
  /\ (length [101325; 90000; 80000] <> length [15; 10]
      /\ calc_rayleigh_beta_dot_trans 532 [101325; 90000; 80000] [15; 10]
           [0; 1000; 2000] true true true
         = Raise (ValueError_broadcast 3 2))
  /\ (length [101325; 90000] = length [15; 10]
      /\ is_ok (calc_rayleigh_beta_dot_trans 532 [101325; 90000] [15; 10]
                  [0; 1000; 2000] true true true) = true).
Proof.
  assert (Hw : tabulated 532) by (unfold tabulated; lra).
  destruct C5_shape_handling as (Hempty & Hmis & Halt).
  split; [exact Hw|]. split; [apply Hempty; exact Hw|]. split.
  - split; [simpl; lia|].
    apply (Hmis 532 [101325; 90000; 80000] [15; 10]); simpl; lia.
  - split; [reflexivity|]. apply Halt; [exact Hw|reflexivity].
Defined.

Lemma C5_counterexample :
  calc_rayleigh_beta_dot_trans 532 [] [] [] true true true
  = Ok (mk_profile [] [] [] [] 1)
  /\ is_ok (calc_rayleigh_beta_dot_trans 532 [101325; 90000] [15; 10]
              [0; 1000; 2000] true true true) = true.
Proof.
  assert (Hw : tabulated 532) by (unfold tabulated; lra).
  split.
  - apply calc_rayleigh_beta_dot_trans_empty. exact Hw.
  - destruct (calc_rayleigh_beta_dot_trans_ok 532 [101325; 90000] [15; 10]
                [0; 1000; 2000] true true Hw eq_refl) as (out & H & _).
    rewrite H. reflexivity.
Qed.

(** * Further properties of the code *)

(** ** airdata: the two averaging loops *)

Lemma py_sum_from (l : list R) (a : R) :
  fold_left Rplus l a = a + Airdata.py_sum l.
Proof.
  unfold Airdata.py_sum. revert a.
  induction l as [|x l IH]; intros a; simpl; [lra|].
  rewrite (IH (a + x)), (IH (0 + x)). lra.
Qed.

Lemma py_sum_cons (x : R) (l : list R) :
  Airdata.py_sum (x :: l) = x + Airdata.py_sum l.
Proof.
  unfold Airdata.py_sum at 1. simpl. rewrite py_sum_from. lra.
Qed.

Lemma py_sum_bounds (l : list R) (lo hi : R) :
  Forall (fun x => lo <= x <= hi) l ->
  lo * INR (length l) <= Airdata.py_sum l <= hi * INR (length l).
Proof.
  induction 1 as [|x l Hx _ IH].
  - unfold Airdata.py_sum. simpl. lra.
  - rewrite py_sum_cons. change (length (x :: l)) with (S (length l)).
    rewrite S_INR. lra.
Qed.

Lemma average_nonempty (l : list R) :
  l <> [] -> Airdata.average l = Airdata.Returns (Airdata.mean l).
Proof.
  intros Hl. unfold Airdata.average.
  destruct l as [|x l]; [contradiction|reflexivity].
Qed.

Lemma mean_bounds (l : list R) (lo hi : R) :
  l <> [] -> Forall (fun x => lo <= x <= hi) l ->
  lo <= Airdata.mean l <= hi.
Proof.
  intros Hl Hb. pose proof (py_sum_bounds l lo hi Hb) as [H1 H2].
  assert (Hn : 0 < INR (length l)).
  { apply lt_0_INR. destruct l; [contradiction|simpl; lia]. }
  unfold Airdata.mean. split.
  - apply Rmult_le_reg_r with (INR (length l)); [exact Hn|].
    unfold Rdiv. rewrite Rmult_assoc, Rinv_l by lra. lra.
  - apply Rmult_le_reg_r with (INR (length l)); [exact Hn|].
    unfold Rdiv. rewrite Rmult_assoc, Rinv_l by lra. lra.
Qed.

Lemma selected_cons (x : R) (in_list : list R) (t : Airdata.datetime)
    (in_times : list Airdata.datetime) (s e : Z) :
  Airdata.selected (x :: in_list) (t :: in_times) s e
  = if Airdata.in_window t s e
    then (t, x) :: Airdata.selected in_list in_times s e
    else Airdata.selected in_list in_times s e.
Proof. reflexivity. Qed.

Lemma selected_values_in (in_list : list R) (in_times : list Airdata.datetime)
    (s e : Z) (P : R -> Prop) :
  Forall P in_list ->
  Forall P (map snd (Airdata.selected in_list in_times s e)).
Proof.
  intros H. apply Forall_forall. intros x Hx.
  apply in_map_iff in Hx. destruct Hx as ((t & y) & <- & Hin).
  unfold Airdata.selected in Hin. apply filter_In in Hin.
  destruct Hin as [Hin _]. apply in_combine_r in Hin.
  rewrite Forall_forall in H. apply H. exact Hin.
Qed.

Lemma filter_loop_shift (idx : list nat) (x : R) (in_list : list R)
    (t : Airdata.datetime) (in_times : list Airdata.datetime) (s e : Z)
    (acc : list R) :
  Airdata.filter_loop (map S idx) (x :: in_list) (t :: in_times) s e acc
  = Airdata.filter_loop idx in_list in_times s e acc.
Proof.
  revert acc. induction idx as [|i idx IH]; intros acc; [reflexivity|].
  cbn [map Airdata.filter_loop].
  unfold Airdata.getitem. cbn [nth_error].
  destruct (nth_error in_times i) as [t'|]; [|reflexivity].
  cbn [Airdata.and_then].
  destruct (Airdata.in_window t' s e); [|apply IH].
  destruct (nth_error in_list i) as [x'|]; [|reflexivity].
  cbn [Airdata.and_then]. apply IH.
Qed.

Lemma filter_loop_enough (in_list : list R)
    (in_times : list Airdata.datetime) (s e : Z) (acc : list R) :
  (length in_list <= length in_times)%nat ->
  Airdata.filter_loop (seq 0 (length in_list)) in_list in_times s e acc
  = Airdata.Returns (acc ++ map snd (Airdata.selected in_list in_times s e)).
Proof.
  revert in_times acc.
  induction in_list as [|x in_list IH]; intros in_times acc Hlen.
  - unfold Airdata.selected. rewrite combine_nil. cbn.
    rewrite app_nil_r. reflexivity.
  - destruct in_times as [|t in_times]; [simpl in Hlen; lia|].
    cbn [length seq]. rewrite <- seq_shift.
    cbn [Airdata.filter_loop]. unfold Airdata.getitem at 1. cbn [nth_error].
    cbn [Airdata.and_then]. rewrite selected_cons.
    destruct (Airdata.in_window t s e).
    + unfold Airdata.getitem. cbn [nth_error Airdata.and_then].
      rewrite filter_loop_shift, IH by (simpl in Hlen; lia).
      cbn [map snd]. rewrite <- app_assoc. reflexivity.
    + rewrite filter_loop_shift, IH by (simpl in Hlen; lia). reflexivity.
Qed.

Lemma filter_loop_short (in_list : list R)
    (in_times : list Airdata.datetime) (s e : Z) (acc : list R) :
  (length in_times < length in_list)%nat ->
  Airdata.filter_loop (seq 0 (length in_list)) in_list in_times s e acc
  = Airdata.Raises Airdata.IndexError.
Proof.
  revert in_times acc.
  induction in_list as [|x in_list IH]; intros in_times acc Hlen;
    [simpl in Hlen; lia|].
  destruct in_times as [|t in_times]; [reflexivity|].
  cbn [length seq]. rewrite <- seq_shift.
  cbn [Airdata.filter_loop]. unfold Airdata.getitem at 1. cbn [nth_error].
  cbn [Airdata.and_then].
  destruct (Airdata.in_window t s e).
  - unfold Airdata.getitem. cbn [nth_error Airdata.and_then].
    rewrite filter_loop_shift. apply IH. simpl in Hlen. lia.
  - rewrite filter_loop_shift. apply IH. simpl in Hlen. lia.
Qed.

Lemma by_day_loop_shift (idx : list nat) (x : R) (in_list : list R)
    (t : Airdata.datetime) (in_times : list Airdata.datetime) (s e : Z)
    (dates : Airdata.dict (list R)) :
  Airdata.by_day_loop (map S idx) (x :: in_list) (t :: in_times) s e dates
  = Airdata.by_day_loop idx in_list in_times s e dates.
Proof.
  revert dates. induction idx as [|i idx IH]; intros dates; [reflexivity|].
  cbn [map Airdata.by_day_loop].
  unfold Airdata.getitem. cbn [nth_error].
  destruct (nth_error in_times i) as [t'|]; [|reflexivity].
  cbn [Airdata.and_then].
  destruct (Airdata.in_window t' s e); [|apply IH].
  destruct (negb _);
    (destruct (nth_error in_list i) as [x'|]; [|reflexivity]);
    cbn [Airdata.and_then]; apply IH.
Qed.

Lemma by_day_loop_enough (in_list : list R)
    (in_times : list Airdata.datetime) (s e : Z)
    (dates : Airdata.dict (list R)) :
  (length in_list <= length in_times)%nat ->
  Airdata.by_day_loop (seq 0 (length in_list)) in_list in_times s e dates
  = Airdata.Returns
      (Airdata.group_by_day dates (Airdata.selected in_list in_times s e)).
Proof.
  revert in_times dates.
  induction in_list as [|x in_list IH]; intros in_times dates Hlen.
  - unfold Airdata.selected. rewrite combine_nil. reflexivity.
  - destruct in_times as [|t in_times]; [simpl in Hlen; lia|].
    cbn [length seq]. rewrite <- seq_shift.
    cbn [Airdata.by_day_loop]. unfold Airdata.getitem at 1. cbn [nth_error].
    cbn [Airdata.and_then]. rewrite selected_cons.
    destruct (Airdata.in_window t s e).
    + unfold Airdata.group_by_day. cbn [fold_left].
      unfold Airdata.add_measurement at 2. cbn [fst snd].
      unfold Airdata.getitem. cbn [nth_error].
      destruct (negb _); cbn [Airdata.and_then];
        rewrite by_day_loop_shift, IH by (simpl in Hlen; lia); reflexivity.
    + rewrite by_day_loop_shift, IH by (simpl in Hlen; lia). reflexivity.
Qed.

Lemma by_day_loop_short (in_list : list R)
    (in_times : list Airdata.datetime) (s e : Z)
    (dates : Airdata.dict (list R)) :
  (length in_times < length in_list)%nat ->
  Airdata.by_day_loop (seq 0 (length in_list)) in_list in_times s e dates
  = Airdata.Raises Airdata.IndexError.
Proof.
  revert in_times dates.
  induction in_list as [|x in_list IH]; intros in_times dates Hlen;
    [simpl in Hlen; lia|].
  destruct in_times as [|t in_times]; [reflexivity|].
  cbn [length seq]. rewrite <- seq_shift.
  cbn [Airdata.by_day_loop]. unfold Airdata.getitem at 1. cbn [nth_error].
  cbn [Airdata.and_then].
  destruct (Airdata.in_window t s e).
  - unfold Airdata.getitem. cbn [nth_error].
    destruct (negb _); cbn [Airdata.and_then];
      rewrite by_day_loop_shift; apply IH; simpl in Hlen; lia.
  - rewrite by_day_loop_shift. apply IH. simpl in Hlen. lia.
Qed.

(** *** The dictionary *)


Lemma dict_mem_keys {V : Type} (key : String.string) (d : Airdata.dict V) :
  Airdata.dict_mem key d = false -> ~ In key (map fst d).
Proof.
  induction d as [|[k v] d IH]; intros H Hin; [exact Hin|].
  cbn [Airdata.dict_mem] in H. apply orb_false_iff in H. destruct H as [Hk Hd].
  destruct Hin as [Hin|Hin].
  - simpl in Hin. subst. rewrite String.eqb_refl in Hk. discriminate.
  - exact (IH Hd Hin).
Qed.



Lemma dict_append_at_keys (key : String.string) (x : R)
    (d : Airdata.dict (list R)) :
  map fst (Airdata.dict_append_at key x d) = map fst d.
Proof.
  induction d as [|[k l] d IH]; [reflexivity|].
  cbn [Airdata.dict_append_at]. destruct (String.eqb k key); [reflexivity|].
  cbn [map fst]. rewrite IH. reflexivity.
Qed.

Lemma dict_append_at_nonempty (key : String.string) (x : R)
    (d : Airdata.dict (list R)) :
  Forall (fun p => snd p <> []) d ->
  Forall (fun p => snd p <> []) (Airdata.dict_append_at key x d).
Proof.
  induction 1 as [|[k l] d Hl Hd IH]; [constructor|].
  cbn [Airdata.dict_append_at]. destruct (String.eqb k key).
  - constructor; [|exact Hd]. cbn [snd]. destruct l; discriminate.
  - constructor; [exact Hl|exact IH].
Qed.


Lemma NoDup_snoc {A : Type} (l : list A) (a : A) :
  NoDup l -> ~ In a l -> NoDup (l ++ [a]).
Proof.
  induction 1 as [|x l Hx Hl IH]; intros Ha.
  - constructor; [intros []|constructor].
  - cbn [app]. constructor.
    + intros Hin. apply in_app_or in Hin. destruct Hin as [Hin|[E|[]]].
      * exact (Hx Hin).
      * apply Ha. left. symmetry. exact E.
    + apply IH. intros Hin. apply Ha. right. exact Hin.
Qed.

Lemma add_measurement_invariant (d : Airdata.dict (list R))
    (p : Airdata.datetime * R) :
  NoDup (map fst d) /\ Forall (fun q => snd q <> []) d ->
  NoDup (map fst (Airdata.add_measurement d p))
  /\ Forall (fun q => snd q <> []) (Airdata.add_measurement d p).
Proof.
  intros [Hnd Hne]. unfold Airdata.add_measurement.
  destruct (Airdata.dict_mem (Airdata.date_key (fst p)) d) eqn:Hmem;
    cbn [negb].
  - rewrite dict_append_at_keys. split; [exact Hnd|].
    apply dict_append_at_nonempty. exact Hne.
  - split.
    + rewrite map_app. cbn [map fst].
      apply NoDup_snoc; [exact Hnd|]. apply dict_mem_keys. exact Hmem.
    + apply Forall_app. split; [exact Hne|].
      constructor; [discriminate|constructor].
Qed.

Lemma group_by_day_invariant (sel : list (Airdata.datetime * R))
    (d : Airdata.dict (list R)) :
  NoDup (map fst d) /\ Forall (fun q => snd q <> []) d ->
  NoDup (map fst (Airdata.group_by_day d sel))
  /\ Forall (fun q => snd q <> []) (Airdata.group_by_day d sel).
Proof.
  revert d. induction sel as [|p sel IH]; intros d H; [exact H|].
  unfold Airdata.group_by_day. cbn [fold_left].
  apply IH. apply add_measurement_invariant. exact H.
Qed.


Lemma average_values_nonempty (d : Airdata.dict (list R)) :
  Forall (fun q => snd q <> []) d ->
  Airdata.average_values d
  = Airdata.Returns (map (fun q => (fst q, Airdata.mean (snd q))) d).
Proof.
  induction 1 as [|[k l] d Hl _ IH]; [reflexivity|].
  cbn [Airdata.average_values]. rewrite average_nonempty by exact Hl.
  cbn [Airdata.and_then]. rewrite IH. reflexivity.
Qed.


Lemma filter_avg_by_day_enough (in_list : list R)
    (in_times : list Airdata.datetime) (s e : Z) :
  (length in_list <= length in_times)%nat ->
  Airdata.filter_avg_by_day in_list in_times s e
  = Airdata.Returns
      (map (fun q => (fst q, Airdata.mean (snd q)))
           (Airdata.group_by_day []
              (Airdata.selected in_list in_times s e))).
Proof.
  intros Hlen. unfold Airdata.filter_avg_by_day.
  rewrite by_day_loop_enough by exact Hlen. cbn [Airdata.and_then].
  apply average_values_nonempty.
  apply group_by_day_invariant. split; constructor.
Qed.

Lemma filter_avg_enough (in_list : list R)
    (in_times : list Airdata.datetime) (s e : Z) :
  (length in_list <= length in_times)%nat ->
  Airdata.filter_avg in_list in_times s e
  = Airdata.average (map snd (Airdata.selected in_list in_times s e)).
Proof.
  intros Hlen. unfold Airdata.filter_avg.
  rewrite filter_loop_enough by exact Hlen. reflexivity.
Qed.

Lemma group_one_day (key : String.string)
    (sel : list (Airdata.datetime * R)) (l0 : list R) :
  Forall (fun p => Airdata.date_key (fst p) = key) sel ->
  Airdata.group_by_day [(key, l0)] sel = [(key, l0 ++ map snd sel)].
Proof.
  intros H. revert l0. induction H as [|p sel Hp _ IH]; intros l0.
  - cbn. rewrite app_nil_r. reflexivity.
  - unfold Airdata.group_by_day. cbn [fold_left].
    unfold Airdata.add_measurement at 2. rewrite Hp.
    cbn [Airdata.dict_mem]. rewrite String.eqb_refl. cbn [orb negb].
    cbn [Airdata.dict_append_at]. rewrite String.eqb_refl.
    change (fold_left Airdata.add_measurement sel [(key, l0 ++ [snd p])])
      with (Airdata.group_by_day [(key, l0 ++ [snd p])] sel).
    rewrite IH, <- app_assoc. reflexivity.
Qed.

Lemma filter_none {A : Type} (f : A -> bool) (l : list A) :
  (forall a, In a l -> f a = false) -> filter f l = [].
Proof.
  induction l as [|a l IH]; intros H; [reflexivity|].
  cbn [filter]. rewrite (H a) by (left; reflexivity).
  apply IH. intros b Hb. apply H. right. exact Hb.
Qed.

(** [filter_avg] indexes the time stamps with the indices of the
    measurements: fewer time stamps than measurements end in [IndexError],
    whatever the window. *)
Theorem filter_avg_short_times (in_list : list R)
    (in_times : list Airdata.datetime) (start_time end_time : Z) :
  (length in_times < length in_list)%nat ->
  Airdata.filter_avg in_list in_times start_time end_time
  = Airdata.Raises Airdata.IndexError.
Proof.
  intros Hlen. unfold Airdata.filter_avg.
  rewrite filter_loop_short by exact Hlen. reflexivity.
Qed.

Lemma filter_avg_short_times_witness :
  (length [Airdata.mk_datetime 2020 3 8 9] < length ([41.5; 38]%R))%nat
  /\ Airdata.filter_avg [41.5; 38] [Airdata.mk_datetime 2020 3 8 9] 8 17
     = Airdata.Raises Airdata.IndexError.
Proof.
  split; [simpl; lia|].
  apply (filter_avg_short_times [41.5; 38] [Airdata.mk_datetime 2020 3 8 9]).
  simpl; lia.
Defined.

(** When no time stamp falls in the window, and in particular on empty
    input, [filter_avg] divides by [len([])] and raises
    [ZeroDivisionError]. *)
Theorem filter_avg_empty_window (in_list : list R)
    (in_times : list Airdata.datetime) (start_time end_time : Z) :
  (length in_list <= length in_times)%nat ->
  Forall (fun t => Airdata.in_window t start_time end_time = false) in_times ->
  Airdata.filter_avg in_list in_times start_time end_time
  = Airdata.Raises Airdata.ZeroDivisionError.
Proof.
  intros Hlen Hout. rewrite filter_avg_enough by exact Hlen.
  replace (Airdata.selected in_list in_times start_time end_time)
    with (@nil (Airdata.datetime * R)); [reflexivity|].
  symmetry. unfold Airdata.selected.
  apply filter_none. intros (t & x) Hin. cbn [fst].
  rewrite Forall_forall in Hout. apply Hout.
  apply in_combine_l in Hin. exact Hin.
Qed.

Lemma filter_avg_empty_window_witness :
  (length ([41.5]%R) <= length [Airdata.mk_datetime 2020 3 8 3])%nat
  /\ Forall (fun t => Airdata.in_window t 8 17 = false)
            [Airdata.mk_datetime 2020 3 8 3]
  /\ Airdata.filter_avg [41.5] [Airdata.mk_datetime 2020 3 8 3] 8 17
     = Airdata.Raises Airdata.ZeroDivisionError.
Proof.
  assert (Hlen : (length ([41.5]%R)
                  <= length [Airdata.mk_datetime 2020 3 8 3])%nat)
    by (simpl; lia).
  assert (Hout : Forall (fun t => Airdata.in_window t 8 17 = false)
                        [Airdata.mk_datetime 2020 3 8 3])
    by (repeat constructor).
  split; [exact Hlen|]. split; [exact Hout|].
  exact (filter_avg_empty_window [41.5] [Airdata.mk_datetime 2020 3 8 3]
           8 17 Hlen Hout).
Defined.

(** With a time stamp for every measurement and at least one of them in the
    window, [filter_avg] returns the arithmetic mean of the measurements
    whose hour lies in [[start_time, end_time]] (both ends included); the
    mean stays within any bounds that hold for the measurements. *)
Theorem filter_avg_mean (in_list : list R)
    (in_times : list Airdata.datetime) (start_time end_time : Z) :
  (length in_list <= length in_times)%nat ->
  Airdata.selected in_list in_times start_time end_time <> [] ->
  Airdata.filter_avg in_list in_times start_time end_time
  = Airdata.Returns
      (Airdata.mean
         (map snd (Airdata.selected in_list in_times start_time end_time)))
  /\ forall lo hi,
       Forall (fun x => lo <= x <= hi) in_list ->
       lo <= Airdata.mean
               (map snd
                  (Airdata.selected in_list in_times start_time end_time))
          <= hi.
Proof.
  intros Hlen Hsel.
  assert (Hne : map snd
                  (Airdata.selected in_list in_times start_time end_time)
                <> []).
  { intros E. apply map_eq_nil in E. exact (Hsel E). }
  split.
  - rewrite filter_avg_enough by exact Hlen.
    apply average_nonempty. exact Hne.
  - intros lo hi Hb. apply mean_bounds; [exact Hne|].
    apply selected_values_in. exact Hb.
Qed.

Lemma filter_avg_mean_witness :
  Airdata.filter_avg [40; 50; 90]
    [Airdata.mk_datetime 2020 3 8 9; Airdata.mk_datetime 2020 3 8 17;
     Airdata.mk_datetime 2020 3 8 18] 9 17
  = Airdata.Returns (Airdata.mean [40; 50]).
Proof.
  refine (proj1 (filter_avg_mean [40; 50; 90]
    [Airdata.mk_datetime 2020 3 8 9; Airdata.mk_datetime 2020 3 8 17;
     Airdata.mk_datetime 2020 3 8 18] 9 17 _ _)).
  - simpl; lia.
  - vm_compute. discriminate.
Defined.

(** Time stamps beyond the last measurement are never read. *)
Theorem filter_avg_ignores_extra_times (in_list : list R)
    (in_times extra : list Airdata.datetime) (start_time end_time : Z) :
  (length in_list <= length in_times)%nat ->
  Airdata.filter_avg in_list (in_times ++ extra) start_time end_time
  = Airdata.filter_avg in_list in_times start_time end_time.
Proof.
  intros Hlen.
  rewrite !filter_avg_enough by (rewrite ?length_app; lia).
  unfold Airdata.selected. f_equal. f_equal. f_equal.
  revert in_list Hlen. induction in_times as [|t in_times IH];
    intros [|x in_list] Hlen; simpl in *; try reflexivity; try lia.
  - destruct extra; reflexivity.
  - f_equal. apply IH. lia.
Qed.

Lemma filter_avg_ignores_extra_times_witness :
  (length ([40]%R) <= length [Airdata.mk_datetime 2020 3 8 9])%nat
  /\ Airdata.filter_avg [40]
       ([Airdata.mk_datetime 2020 3 8 9]
        ++ [Airdata.mk_datetime 2020 3 9 10]) 9 17
     = Airdata.filter_avg [40] [Airdata.mk_datetime 2020 3 8 9] 9 17.
Proof.
  split; [simpl; lia|].
  apply (filter_avg_ignores_extra_times [40]
           [Airdata.mk_datetime 2020 3 8 9]
           [Airdata.mk_datetime 2020 3 9 10]).
  simpl; lia.
Defined.

(** [filter_avg_by_day] never divides by zero: a list enters the dictionary
    with its first element.  It returns a dictionary exactly when there is a
    time stamp for every measurement, raises [IndexError] otherwise, and an
    empty window gives the empty dictionary (where [filter_avg] raises). *)
Theorem filter_avg_by_day_outcome (in_list : list R)
    (in_times : list Airdata.datetime) (start_hour end_hour : Z) :
  Airdata.filter_avg_by_day in_list in_times start_hour end_hour
  <> Airdata.Raises Airdata.ZeroDivisionError
  /\ ((length in_list <= length in_times)%nat ->
      exists d,
        Airdata.filter_avg_by_day in_list in_times start_hour end_hour
        = Airdata.Returns d
        /\ (Airdata.selected in_list in_times start_hour end_hour = []
            -> d = []))
  /\ ((length in_times < length in_list)%nat ->
      Airdata.filter_avg_by_day in_list in_times start_hour end_hour
      = Airdata.Raises Airdata.IndexError).
Proof.
  assert (Hshort : (length in_times < length in_list)%nat ->
            Airdata.filter_avg_by_day in_list in_times start_hour end_hour
            = Airdata.Raises Airdata.IndexError).
  { intros Hlen. unfold Airdata.filter_avg_by_day.
    rewrite by_day_loop_short by exact Hlen. reflexivity. }
  split; [|split].
  - destruct (le_lt_dec (length in_list) (length in_times)) as [Hlen|Hlen].
    + rewrite filter_avg_by_day_enough by exact Hlen. discriminate.
    + rewrite Hshort by exact Hlen. discriminate.
  - intros Hlen. eexists. split.
    + apply filter_avg_by_day_enough. exact Hlen.
    + intros ->. reflexivity.
  - exact Hshort.
Qed.

Lemma filter_avg_by_day_outcome_witness :
  (length ([41.5]%R) <= length [Airdata.mk_datetime 2020 3 8 3])%nat
  /\ Airdata.filter_avg_by_day [41.5] [Airdata.mk_datetime 2020 3 8 3] 8 17
     = Airdata.Returns [].
Proof.
  assert (Hlen : (length ([41.5]%R)
                  <= length [Airdata.mk_datetime 2020 3 8 3])%nat)
    by (simpl; lia).
  split; [exact Hlen|].
  destruct (proj1 (proj2 (filter_avg_by_day_outcome [41.5]
                            [Airdata.mk_datetime 2020 3 8 3] 8 17)) Hlen)
    as (d & Hd & Hempty).
  rewrite Hd. f_equal. apply Hempty. reflexivity.
Defined.



(** When every measurement of the window falls on one day, the dictionary of
    [filter_avg_by_day] has that single day, and its value is the number
    [filter_avg] returns. *)
Theorem filter_avg_by_day_single_day (in_list : list R)
    (in_times : list Airdata.datetime) (start_hour end_hour : Z)
    (key : String.string) :
  (length in_list <= length in_times)%nat ->
  Airdata.selected in_list in_times start_hour end_hour <> [] ->
  Forall (fun p => Airdata.date_key (fst p) = key)
         (Airdata.selected in_list in_times start_hour end_hour) ->
  exists v,
    Airdata.filter_avg in_list in_times start_hour end_hour
    = Airdata.Returns v
    /\ Airdata.filter_avg_by_day in_list in_times start_hour end_hour
       = Airdata.Returns [(key, v)].
Proof.
  intros Hlen Hsel Hday.
  assert (Havg : Airdata.filter_avg in_list in_times start_hour end_hour
                 = Airdata.Returns
                     (Airdata.mean
                        (map snd (Airdata.selected in_list in_times
                                    start_hour end_hour)))).
  { rewrite filter_avg_enough by exact Hlen. apply average_nonempty.
    intros E. apply map_eq_nil in E. exact (Hsel E). }
  eexists. split; [exact Havg|].
  rewrite filter_avg_by_day_enough by exact Hlen. f_equal.
  destruct (Airdata.selected in_list in_times start_hour end_hour)
    as [|p sel]; [contradiction|].
  inversion Hday as [|p' sel' Hp Hrest]; subst.
  unfold Airdata.group_by_day. cbn [fold_left].
  unfold Airdata.add_measurement at 2. cbn [Airdata.dict_mem negb app].
  change (fold_left Airdata.add_measurement sel
            [(Airdata.date_key (fst p), [snd p])])
    with (Airdata.group_by_day [(Airdata.date_key (fst p), [snd p])] sel).
  rewrite group_one_day by exact Hrest. reflexivity.
Qed.

Lemma filter_avg_by_day_single_day_witness :
  exists v,
    Airdata.filter_avg [40; 50; 90]
      [Airdata.mk_datetime 2020 3 8 9; Airdata.mk_datetime 2020 3 8 17;
       Airdata.mk_datetime 2020 3 8 18] 9 17 = Airdata.Returns v
    /\ Airdata.filter_avg_by_day [40; 50; 90]
         [Airdata.mk_datetime 2020 3 8 9; Airdata.mk_datetime 2020 3 8 17;
          Airdata.mk_datetime 2020 3 8 18] 9 17
       = Airdata.Returns
           [(Airdata.date_key (Airdata.mk_datetime 2020 3 8 0), v)].
Proof.
  apply (filter_avg_by_day_single_day [40; 50; 90]
      [Airdata.mk_datetime 2020 3 8 9; Airdata.mk_datetime 2020 3 8 17;
       Airdata.mk_datetime 2020 3 8 18] 9 17).
  - simpl; lia.
  - vm_compute. discriminate.
  - vm_compute. repeat constructor.
Defined.

(** ** lidar_utilities.py: the stages and their composition *)

(** The number density satisfies the ideal-gas law it is computed from:
    wherever the kelvin temperature is not zero, [N * kB * T] gives the
    pressure back; positive pressure and kelvin temperature give a positive
    density. *)
Theorem number_density_ideal_gas (pressure temperature : ndarray)
    (celsius : bool) :
  length pressure = length temperature ->
  exists ND,
    calc_number_density pressure temperature celsius = Ok ND
    /\ forall i, (i < length pressure)%nat ->
         let T := if celsius then nth i temperature 0 + 273.15
                  else nth i temperature 0 in
         (T <> 0 -> nth i ND 0 * (kB * T) = nth i pressure 0)
         /\ (0 < T -> 0 < nth i pressure 0 -> 0 < nth i ND 0).
Proof.
  intros Hlen. eexists.
  split; [apply calc_number_density_formula; exact Hlen|].
  intros i Hi T. rewrite nth_zip_with by assumption. fold T.
  assert (HkB : 0 < kB) by (unfold kB; lra).
  split.
  - intros HT. field. split; lra.
  - intros HT HP. apply Rdiv_lt_0_compat; [exact HP|].
    apply Rmult_lt_0_compat; assumption.
Qed.

Lemma number_density_ideal_gas_witness :
  exists ND,
    calc_number_density [101325; 90000] [15; 10] true = Ok ND
    /\ nth 1 ND 0 * (kB * (10 + 273.15)) = 90000.
Proof.
  destruct (number_density_ideal_gas [101325; 90000] [15; 10] true eq_refl)
    as (ND & HND & H).
  exists ND. split; [exact HND|].
  apply (H 1%nat); [simpl; lia|simpl; lra].
Defined.

Lemma zip_with_scale_l (c : R) (a b : ndarray) :
  zip_with Rdiv (map (Rmult c) a) b = map (Rmult c) (zip_with Rdiv a b).
Proof.
  revert b. induction a as [|x a IH]; intros [|y b]; try reflexivity.
  unfold zip_with in *. cbn [map combine fst snd]. rewrite IH.
  f_equal. unfold Rdiv. ring.
Qed.

Lemma divide_scale_l (c : R) (a b : ndarray) :
  divide (map (Rmult c) a) b = map_result (map (Rmult c)) (divide a b).
Proof.
  unfold divide, broadcast. rewrite length_map.
  destruct (Nat.eqb (length a) (length b)).
  - cbn. rewrite zip_with_scale_l. reflexivity.
  - destruct a as [|x [|x' a]]; destruct b as [|y [|y' b]];
      cbn [map length map_result Py.bind]; rewrite ?length_map;
      repeat match goal with
      | |- Ok _ = Ok _ => f_equal
      | |- _ :: _ = _ :: _ => apply (f_equal2 cons); [unfold Rdiv; ring|]
      | |- map _ _ = map _ (map _ _) =>
          rewrite !map_map; apply map_ext; intros; unfold Rdiv; ring
      | |- _ => reflexivity
      end.
Qed.

(** Both the number density and the backscatter coefficient are linear in
    the pressure: scaling every pressure sample by [c] scales every output
    sample by [c] (and leaves an exception unchanged). *)
Theorem pressure_scaling (c wavelength : R) (pressure temperature : ndarray)
    (nanometers celsius : bool) :
  calc_number_density (map (Rmult c) pressure) temperature celsius
  = map_result (map (Rmult c))
      (calc_number_density pressure temperature celsius)
  /\ calc_beta_rayleigh wavelength (map (Rmult c) pressure) temperature
       nanometers
     = map_result (map (Rmult c))
         (calc_beta_rayleigh wavelength pressure temperature nanometers).
Proof.
  split.
  - unfold calc_number_density. destruct celsius; apply divide_scale_l.
  - unfold calc_beta_rayleigh. rewrite divide_scale_l.
    destruct (divide pressure temperature) as [q|e]; [|reflexivity].
    cbn [map_result Py.bind].
    destruct (Py.pow _ _) as [w|e]; [|reflexivity].
    cbn [Py.bind map_result]. f_equal. rewrite !map_map. apply map_ext.
    intros x. ring.
Qed.

Lemma broadcast_singleton_r (f : R -> R -> R) (a : ndarray) (y : R) :
  broadcast f a [y] = Ok (map (fun x => f x y) a).
Proof.
  unfold broadcast. destruct a as [|x [|x' a]]; reflexivity.
Qed.

Lemma zip_with_repeat_r (f : R -> R -> R) (a : ndarray) (y : R) :
  zip_with f a (repeat y (length a)) = map (fun x => f x y) a.
Proof.
  induction a as [|x a IH]; [reflexivity|].
  unfold zip_with in *. cbn [length repeat combine map fst snd].
  rewrite IH. reflexivity.
Qed.

(** A one-element temperature array is stretched by numpy over the whole
    pressure profile: the pipeline treats it as an isothermal profile. *)
Theorem single_temperature_is_isothermal (wavelength t : R)
    (pressure altitude : ndarray) (nanometers kilometers celsius : bool) :
  calc_rayleigh_beta_dot_trans wavelength pressure [t] altitude
    nanometers kilometers celsius
  = calc_rayleigh_beta_dot_trans wavelength pressure
      (repeat t (length pressure)) altitude nanometers kilometers celsius.
Proof.
  assert (Hdiv : forall g : R -> R,
            divide pressure (map g [t])
            = divide pressure (map g (repeat t (length pressure)))).
  { intros g. unfold divide. cbn [map]. rewrite broadcast_singleton_r.
    rewrite broadcast_same_length
      by (rewrite length_map, repeat_length; reflexivity).
    rewrite zip_with_map_r, zip_with_repeat_r. reflexivity. }
  unfold calc_rayleigh_beta_dot_trans, calc_beta_rayleigh,
    calc_number_density.
  pose proof (Hdiv (fun x => x)) as Hid. rewrite !map_id in Hid.
  rewrite Hid. destruct celsius; rewrite Hdiv; reflexivity.
Qed.

(** [calc_index_refraction] away from the table: it raises
    [ZeroDivisionError] at wavelength 0, it reads the wavelength through its
    square only, and on the whole range from 133 nm to 1 mm (wider than the
    depolarization table) it returns the closed form, a value above 1. *)
Theorem index_refraction_errors (wavelength : R) :
  calc_index_refraction 0 = Raise ZeroDivisionError
  /\ calc_index_refraction (- wavelength) = calc_index_refraction wavelength
  /\ (133 <= wavelength <= 10 ^ 6 ->
      calc_index_refraction wavelength
      = Ok (1.0 + (5791817.0 / (238.0185 - 10 ^ 6 / wavelength ^ 2)
                   + 167909.0 / (57.362 - 10 ^ 6 / wavelength ^ 2)) * 1e-8)
      /\ 1 < 1.0 + (5791817.0 / (238.0185 - 10 ^ 6 / wavelength ^ 2)
                    + 167909.0 / (57.362 - 10 ^ 6 / wavelength ^ 2)) * 1e-8).
Proof.
  split; [|split].
  - unfold calc_index_refraction.
    replace (0 ^ 2) with 0 by ring. rewrite div_zero. reflexivity.
  - unfold calc_index_refraction.
    replace ((- wavelength) ^ 2) with (wavelength ^ 2) by ring.
    reflexivity.
  - intros [Hlo Hhi].
    assert (Hsq : 17689 <= wavelength ^ 2) by (simpl; nra).
    assert (Ha : 0 < 10 ^ 6 / wavelength ^ 2 <= 57).
    { split; [apply Rdiv_lt_0_compat; [simpl; lra|lra]|].
      apply Rmult_le_reg_r with (wavelength ^ 2); [lra|].
      unfold Rdiv. rewrite Rmult_assoc, Rinv_l by lra.
      simpl (10 ^ 6). lra. }
    set (a := 10 ^ 6 / wavelength ^ 2) in *.
    split.
    + unfold calc_index_refraction.
      rewrite (div_ok (10 ^ 6) (wavelength ^ 2)) by lra. cbn [Py.bind].
      fold a. rewrite !div_ok by lra. reflexivity.
    + assert (0 < 5791817.0 / (238.0185 - a))
        by (apply Rdiv_lt_0_compat; lra).
      assert (0 < 167909.0 / (57.362 - a))
        by (apply Rdiv_lt_0_compat; lra).
      lra.
Qed.

Lemma index_refraction_errors_witness :
  133 <= 1550 <= 10 ^ 6
  /\ calc_index_refraction 1550
     = Ok (1.0 + (5791817.0 / (238.0185 - 10 ^ 6 / 1550 ^ 2)
                  + 167909.0 / (57.362 - 10 ^ 6 / 1550 ^ 2)) * 1e-8).
Proof.
  assert (H : 133 <= 1550 <= 10 ^ 6) by (simpl; lra).
  split; [exact H|].
  exact (proj1 (proj2 (proj2 (index_refraction_errors 1550)) H)).
Defined.

Lemma calc_index_refraction_order (w1 w2 : R) :
  tabulated w1 -> tabulated w2 -> w1 <= w2 ->
  exists n1 n2,
    calc_index_refraction w1 = Ok n1
    /\ calc_index_refraction w2 = Ok n2
    /\ 1.00027 < n2 /\ n2 <= n1 /\ n1 < 1.00033.
Proof.
  intros H1 H2 Hle.
  destruct (calc_index_refraction_tabulated w1 H1) as [E1 _].
  destruct (calc_index_refraction_tabulated w2 H2) as [E2 _].
  destruct (cauchy_term_bounds w1 H1) as (Hs1 & Ha1 & Hb1).
  destruct (cauchy_term_bounds w2 H2) as (Hs2 & Ha2 & Hb2).
  assert (Ha : 10 ^ 6 / w2 ^ 2 <= 10 ^ 6 / w1 ^ 2).
  { destruct H1 as [H1 _]. unfold Rdiv.
    apply Rmult_le_compat_l; [simpl; lra|].
    apply Rinv_le_contravar; [simpl; nra|]. simpl. nra. }
  set (a1 := 10 ^ 6 / w1 ^ 2) in *. set (a2 := 10 ^ 6 / w2 ^ 2) in *.
  assert (Hterm : forall c k a b, 0 < c -> 25 < k -> 0 < a <= 25 ->
            0 < b <= 25 -> a <= b ->
            c / k < c / (k - a) /\ c / (k - a) <= c / (k - b)
            /\ c / (k - b) <= c / (k - 25)).
  { intros c k a b Hc Hk [Ha0 Ha25] [Hb0 Hb25] Hab. unfold Rdiv.
    split; [|split].
    - apply Rmult_lt_compat_l; [exact Hc|].
      apply Rinv_lt_contravar; [nra|lra].
    - apply Rmult_le_compat_l; [lra|].
      apply Rinv_le_contravar; lra.
    - apply Rmult_le_compat_l; [lra|].
      apply Rinv_le_contravar; lra. }
  destruct (Hterm 5791817.0 238.0185 a2 a1) as (T1 & T2 & T3); try lra.
  destruct (Hterm 167909.0 57.362 a2 a1) as (U1 & U2 & U3); try lra.
  assert (L1 : 24333 < 5791817.0 / 238.0185).
  { apply Rmult_lt_reg_r with 238.0185; [lra|].
    unfold Rdiv. rewrite Rmult_assoc, Rinv_l by lra. lra. }
  assert (L2 : 2927 < 167909.0 / 57.362).
  { apply Rmult_lt_reg_r with 57.362; [lra|].
    unfold Rdiv. rewrite Rmult_assoc, Rinv_l by lra. lra. }
  assert (L3 : 5791817.0 / (238.0185 - 25) < 27190).
  { apply Rmult_lt_reg_r with (238.0185 - 25); [lra|].
    unfold Rdiv. rewrite Rmult_assoc, Rinv_l by lra. lra. }
  assert (L4 : 167909.0 / (57.362 - 25) < 5189).
  { apply Rmult_lt_reg_r with (57.362 - 25); [lra|].
    unfold Rdiv. rewrite Rmult_assoc, Rinv_l by lra. lra. }
  eexists. eexists. split; [exact E1|]. split; [exact E2|].
  fold a1 a2. lra.
Qed.

(** The refractive index of air on the tabulated domain: between 1.00027
    and 1.00033, and falling as the wavelength grows (normal dispersion). *)
Theorem index_refraction_tabulated (w1 w2 : R) :
  tabulated w1 -> tabulated w2 -> w1 <= w2 ->
  exists n1 n2,
    calc_index_refraction w1 = Ok n1
    /\ calc_index_refraction w2 = Ok n2
    /\ 1.00027 < n2 /\ n2 <= n1 /\ n1 < 1.00033.
Proof. exact (calc_index_refraction_order w1 w2). Qed.

Lemma index_refraction_tabulated_witness :
  exists n1 n2,
    calc_index_refraction 532 = Ok n1 /\ calc_index_refraction 1064 = Ok n2
    /\ 1.00027 < n2 /\ n2 <= n1 /\ n1 < 1.00033.
Proof.
  apply (index_refraction_tabulated 532 1064); unfold tabulated; lra.
Defined.

Lemma nonincreasing_chain_head (x : R) (l : ndarray) (j : nat) :
  nonincreasing_chain (x :: l) -> (j < length l)%nat -> nth j l 0 <= x.
Proof.
  revert x j. induction l as [|y l IH]; intros x j Hc Hj; simpl in Hj; [lia|].
  destruct Hc as [Hxy Hc].
  destruct j as [|j]; [exact Hxy|].
  simpl. apply Rle_trans with y; [|exact Hxy]. apply IH; [exact Hc|lia].
Qed.

Lemma nonincreasing_chain_nonincreasing (l : ndarray) :
  nonincreasing_chain l -> nonincreasing l.
Proof.
  induction l as [|x l IH]; intros Hc i j Hij; simpl in Hij; [lia|].
  destruct j as [|j]; [lia|].
  destruct i as [|i].
  - simpl. apply nonincreasing_chain_head; [exact Hc|lia].
  - simpl. apply IH; [|lia].
    destruct l as [|y l]; [exact I|]. apply Hc.
Qed.

Lemma depolarize_nonincreasing : nonincreasing depolarize.
Proof.
  apply nonincreasing_chain_nonincreasing. unfold depolarize. simpl.
  repeat split; lra.
Qed.

Lemma calc_depol_ratio_row (k : nat) :
  (k < 36)%nat ->
  calc_depol_ratio (nth k wavelengths 0) = Ok (nth k depolarize 0).
Proof.
  intros Hk. destruct (Nat.eq_dec k 35) as [->|Hne].
  - rewrite (calc_depol_ratio_segment 34) by (simpl; lia || lra).
    unfold on_segment. simpl. f_equal. lra.
  - rewrite (calc_depol_ratio_segment k).
    + unfold on_segment. f_equal. unfold Rdiv. ring.
    + lia.
    + split; [lra|]. left. apply wavelengths_ascending.
      rewrite wavelengths_length. lia.
Qed.

(** At each of the 36 tabulated wavelengths [calc_depol_ratio] returns the
    tabulated ratio itself. *)
Theorem depol_ratio_at_table_rows (k : nat) :
  (k < 36)%nat ->
  calc_depol_ratio (nth k wavelengths 0) = Ok (nth k depolarize 0).
Proof. exact (calc_depol_ratio_row k). Qed.

Lemma depol_ratio_at_table_rows_witness :
  (7 < 36)%nat /\ calc_depol_ratio 240 = Ok 0.0367534.
Proof.
  split; [lia|]. apply (depol_ratio_at_table_rows 7). lia.
Defined.

(** [calc_depol_ratio] returns a value exactly for the wavelengths in
    [200, 1064] nm, and the value lies between the smallest and the largest
    tabulated ratio. *)
Theorem depol_ratio_domain_and_range (wavelength : R) :
  (is_ok (calc_depol_ratio wavelength) = true <-> tabulated wavelength)
  /\ forall d, calc_depol_ratio wavelength = Ok d ->
       0.0273018 <= d <= 0.0454545.
Proof.
  destruct (Rlt_dec wavelength 200) as [Hlo|Hlo].
  { rewrite calc_depol_ratio_below by exact Hlo. split.
    - split; [discriminate|]. unfold tabulated. lra.
    - discriminate. }
  destruct (Rlt_dec 1064 wavelength) as [Hhi|Hhi].
  { rewrite calc_depol_ratio_above by exact Hhi. split.
    - split; [discriminate|]. unfold tabulated. lra.
    - discriminate. }
  assert (Hw : tabulated wavelength) by (unfold tabulated; lra).
  destruct (calc_depol_ratio_tabulated wavelength Hw) as (d & Hd & Hrange).
  rewrite Hd. split.
  - split; [intros _; exact Hw|reflexivity].
  - intros d' E. injection E as <-. exact Hrange.
Qed.

Section InterpMonotone.

Variables x y : ndarray.
Hypothesis x_ascending : ascending x.
Hypothesis y_nonincreasing : nonincreasing y.
Hypothesis same_length : length y = length x.

Lemma on_segment_antitone (k : nat) (v1 v2 : R) :
  (S k < length x)%nat ->
  nth k x 0 <= v1 -> v1 <= v2 -> v2 <= nth (S k) x 0 ->
  on_segment x y k v2 <= on_segment x y k v1.
Proof.
  intros Hk H1 H12 H2. unfold on_segment.
  assert (Hx : nth k x 0 < nth (S k) x 0) by (apply x_ascending; lia).
  assert (Hy : nth (S k) y 0 <= nth k y 0)
    by (apply y_nonincreasing; lia).
  assert (Hs : (nth (S k) y 0 - nth k y 0) / (nth (S k) x 0 - nth k x 0)
               <= 0).
  { unfold Rdiv.
    assert (0 < / (nth (S k) x 0 - nth k x 0))
      by (apply Rinv_0_lt_compat; lra).
    nra. }
  nra.
Qed.

Lemma interp1d_antitone (v1 v2 d1 d2 : R) :
  v1 <= v2 ->
  interp1d_linear x y v1 = Ok d1 -> interp1d_linear x y v2 = Ok d2 ->
  (2 <= length x)%nat ->
  d2 <= d1.
Proof.
  intros Hle E1 E2 Hlen.
  assert (Hin : forall v d, interp1d_linear x y v = Ok d ->
                  hd 0 x <= v <= last x 0).
  { intros v d E. unfold interp1d_linear in E.
    destruct (Rlt_dec v (hd 0 x)); [discriminate|].
    destruct (Rlt_dec (last x 0) v); [discriminate|]. lra. }
  destruct (segment_exists x x_ascending v1 Hlen (Hin _ _ E1))
    as (k1 & Hk1 & Hs1).
  destruct (segment_exists x x_ascending v2 Hlen (Hin _ _ E2))
    as (k2 & Hk2 & Hs2).
  rewrite (interp1d_segment x y x_ascending k1 v1 Hk1 Hs1) in E1.
  rewrite (interp1d_segment x y x_ascending k2 v2 Hk2 Hs2) in E2.
  injection E1 as <-. injection E2 as <-.
  assert (Hx1 : nth k1 x 0 < nth (S k1) x 0) by (apply x_ascending; lia).
  assert (Hx2 : nth k2 x 0 < nth (S k2) x 0) by (apply x_ascending; lia).
  assert (Hy1 : nth (S k1) y 0 <= nth k1 y 0)
    by (apply y_nonincreasing; lia).
  assert (Hy2 : nth (S k2) y 0 <= nth k2 y 0)
    by (apply y_nonincreasing; lia).
  destruct (lt_eq_lt_dec k1 k2) as [[Hlt|Heq]|Hgt].
  - assert (A : nth (S k1) y 0 <= on_segment x y k1 v1).
    { apply (on_segment_between x y k1 v1 (nth (S k1) y 0) (nth k1 y 0));
        try assumption; lra. }
    assert (B : on_segment x y k2 v2 <= nth k2 y 0).
    { apply (on_segment_between x y k2 v2 (nth (S k2) y 0) (nth k2 y 0));
        try assumption; lra. }
    assert (C : nth k2 y 0 <= nth (S k1) y 0).
    { destruct (Nat.eq_dec (S k1) k2) as [<-|Hne]; [lra|].
      apply y_nonincreasing. lia. }
    lra.
  - subst k2. apply on_segment_antitone; try assumption; lra.
  - assert (Hxx : nth (S k2) x 0 <= nth k1 x 0).
    { destruct (Nat.eq_dec (S k2) k1) as [<-|Hne]; [lra|].
      left. apply x_ascending. lia. }
    assert (Ev : v1 = v2) by lra. subst v2.
    assert (E : Ok (on_segment x y k1 v1) = Ok (on_segment x y k2 v1)).
    { rewrite <- (interp1d_segment x y x_ascending k1 v1 Hk1 Hs1).
      apply interp1d_segment; assumption. }
    injection E as E. lra.
Qed.

End InterpMonotone.

(** The depolarization ratio never rises with the wavelength. *)
Theorem depol_ratio_nonincreasing (w1 w2 d1 d2 : R) :
  w1 <= w2 ->
  calc_depol_ratio w1 = Ok d1 -> calc_depol_ratio w2 = Ok d2 ->
  d2 <= d1.
Proof.
  intros Hle E1 E2.
  apply (interp1d_antitone wavelengths depolarize wavelengths_ascending
           depolarize_nonincreasing eq_refl w1 w2 d1 d2 Hle E1 E2).
  rewrite wavelengths_length. lia.
Qed.

Lemma depol_ratio_nonincreasing_witness :
  240 <= 1064 /\ 0.0273018 <= 0.0367534.
Proof.
  assert (H : 240 <= 1064) by lra.
  split; [exact H|].
  apply (depol_ratio_nonincreasing 240 1064 0.0367534 0.0273018 H).
  - apply (calc_depol_ratio_row 7). lia.
  - apply (calc_depol_ratio_row 35). lia.
Defined.

Lemma depol_ratio_domain_and_range_witness :
  tabulated 532 /\ is_ok (calc_depol_ratio 532) = true.
Proof.
  assert (Hw : tabulated 532) by (unfold tabulated; lra).
  split; [exact Hw|].
  apply (proj2 (proj1 (depol_ratio_domain_and_range 532))). exact Hw.
Defined.

Lemma calc_rayleigh_scat_cross_form (wavelength : R) :
  tabulated wavelength ->
  exists n d rs,
    calc_index_refraction wavelength = Ok n
    /\ calc_depol_ratio wavelength = Ok d
    /\ calc_rayleigh_scat_cross wavelength = Ok rs
    /\ rs = 1e36 * 24 * PI ^ 3 * (n ^ 2 - 1) ^ 2
            / (wavelength ^ 4 * nstp ^ 2 * (n ^ 2 + 2) ^ 2)
            * ((6 + 3 * d) / (6 - 7 * d))
    /\ 0 < rs
    /\ 1.04 < (6 + 3 * d) / (6 - 7 * d) < 1.09.
Proof.
  intros Hw.
  destruct (calc_index_refraction_tabulated wavelength Hw) as [Hior Hn].
  destruct (calc_depol_ratio_tabulated wavelength Hw) as (d & Hd & Hd0 & Hd1).
  destruct (calc_rayleigh_scat_cross_tabulated wavelength Hw)
    as (rs & Hrs & Hpos).
  set (n := 1.0 + _) in *.
  exists n, d, rs. split; [exact Hior|]. split; [exact Hd|].
  split; [exact Hrs|]. split; [|split; [exact Hpos|]].
  - unfold calc_rayleigh_scat_cross in Hrs. rewrite Hior in Hrs.
    cbn [Py.bind] in Hrs.
    unfold Py.div in Hrs. destruct (Req_dec_T _ 0); [discriminate|].
    cbn [Py.bind] in Hrs. rewrite Hd in Hrs. cbn [Py.bind] in Hrs.
    injection Hrs as <-. reflexivity.
  - assert (Hden : 0 < 6 - 7 * d) by lra.
    split.
    + apply Rmult_lt_reg_r with (6 - 7 * d); [exact Hden|].
      unfold Rdiv. rewrite Rmult_assoc, Rinv_l by lra. lra.
    + apply Rmult_lt_reg_r with (6 - 7 * d); [exact Hden|].
      unfold Rdiv. rewrite Rmult_assoc, Rinv_l by lra. lra.
Qed.

(** On the tabulated domain [calc_rayleigh_scat_cross] returns the closed
    form built from [calc_index_refraction] and [calc_depol_ratio]; the
    cross-section is positive and its depolarization (King) factor
    [(6 + 3 d) / (6 - 7 d)] lies between 1.04 and 1.09. *)
Theorem scat_cross_closed_form (wavelength : R) :
  tabulated wavelength ->
  exists n d rs,
    calc_index_refraction wavelength = Ok n
    /\ calc_depol_ratio wavelength = Ok d
    /\ calc_rayleigh_scat_cross wavelength = Ok rs
    /\ rs = 1e36 * 24 * PI ^ 3 * (n ^ 2 - 1) ^ 2
            / (wavelength ^ 4 * nstp ^ 2 * (n ^ 2 + 2) ^ 2)
            * ((6 + 3 * d) / (6 - 7 * d))
    /\ 0 < rs
    /\ 1.04 < (6 + 3 * d) / (6 - 7 * d) < 1.09.
Proof. exact (calc_rayleigh_scat_cross_form wavelength). Qed.

Lemma scat_cross_closed_form_witness :
  tabulated 1064
  /\ exists rs, calc_rayleigh_scat_cross 1064 = Ok rs /\ 0 < rs.
Proof.
  assert (Hw : tabulated 1064) by (unfold tabulated; lra).
  split; [exact Hw|].
  destruct (scat_cross_closed_form 1064 Hw)
    as (n & d & rs & _ & _ & Hrs & _ & Hpos & _).
  exists rs. split; [exact Hrs|exact Hpos].
Defined.

(** The extinction coefficient is linear in the number density (for every
    wavelength, exceptions included); on the tabulated domain it keeps the
    length of the profile and the sign of every sample. *)
Theorem extinction_proportional (wavelength : R) (ND : ndarray) :
  (forall c,
     calc_rayleigh_extinction wavelength (map (Rmult c) ND)
     = map_result (map (Rmult c)) (calc_rayleigh_extinction wavelength ND))
  /\ (tabulated wavelength ->
      exists ext,
        calc_rayleigh_extinction wavelength ND = Ok ext
        /\ length ext = length ND
        /\ (Forall (fun n => 0 <= n) ND -> Forall (fun a => 0 <= a) ext)
        /\ (Forall (fun n => 0 < n) ND -> Forall (fun a => 0 < a) ext)).
Proof.
  split.
  - intros c. unfold calc_rayleigh_extinction.
    destruct (calc_rayleigh_scat_cross wavelength) as [rs|e]; [|reflexivity].
    cbn [Py.bind map_result]. f_equal. rewrite !map_map. apply map_ext.
    intros n. ring.
  - intros Hw.
    destruct (calc_rayleigh_extinction_tabulated wavelength ND Hw)
      as (rs & Hrs & Hext).
    eexists. split; [exact Hext|]. split; [apply length_map|].
    split; intros H; apply Forall_map; apply (Forall_impl _ (P := _)) with (2 := H);
      intros n Hn; nra.
Qed.

Lemma extinction_proportional_witness :
  tabulated 532
  /\ exists ext, calc_rayleigh_extinction 532 [2.5e25; 2.0e25] = Ok ext
                 /\ length ext = 2%nat.
Proof.
  assert (Hw : tabulated 532) by (unfold tabulated; lra).
  split; [exact Hw|].
  destruct (proj2 (extinction_proportional 532 [2.5e25; 2.0e25]) Hw)
    as (ext & Hext & Hlen & _).
  exists ext. split; [exact Hext|exact Hlen].
Defined.

From Stdlib Require Import Permutation.

Lemma gaps_shift (h : R) (z : ndarray) :
  gaps (map (fun a => a + h) z) = gaps z.
Proof.
  induction z as [|x t IH]; [reflexivity|].
  destruct t as [|y l]; [reflexivity|].
  change (map (fun a => a + h) (x :: y :: l))
    with (x + h :: map (fun a => a + h) (y :: l)).
  change (gaps (x :: y :: l)) with ((y - x) :: gaps (y :: l)).
  rewrite <- IH. cbn [map gaps]. f_equal. lra.
Qed.

Lemma calc_rayleigh_trans_gaps (alpha z : ndarray) (kilometers : bool) :
  calc_rayleigh_trans alpha z kilometers
  = exp (-2 * (sum alpha
               * sum (gaps (if kilometers then map (fun a => a / 1000) z
                            else z)))).
Proof.
  unfold calc_rayleigh_trans. rewrite int_alpha_gaps, sum2_outer.
  reflexivity.
Qed.

(** The transmission does not depend on the altitude origin: adding the same
    offset to every altitude sample leaves it unchanged. *)
Theorem transmission_altitude_offset (h : R) (alpha z : ndarray)
    (kilometers : bool) :
  calc_rayleigh_trans alpha (map (fun a => a + h) z) kilometers
  = calc_rayleigh_trans alpha z kilometers.
Proof.
  rewrite !calc_rayleigh_trans_gaps. destruct kilometers.
  - rewrite !gaps_scale, gaps_shift. reflexivity.
  - rewrite gaps_shift. reflexivity.
Qed.

Lemma last_app_cons (a b : ndarray) (m : R) :
  last (a ++ m :: b) 0 = last (m :: b) 0.
Proof.
  induction a as [|x a IH]; [reflexivity|].
  cbn [app]. destruct (a ++ m :: b) eqn:E.
  - destruct a; discriminate.
  - rewrite <- E in *. rewrite <- IH, E. reflexivity.
Qed.

Lemma hd_app_cons (a b : ndarray) (m : R) :
  hd 0 (a ++ m :: b) = hd 0 (a ++ [m]).
Proof. destruct a; reflexivity. Qed.

(** Two stacked layers: for one extinction array, the transmission over an
    altitude profile split at a shared sample is the product of the
    transmissions of the two parts. *)
Theorem transmission_layers_multiply (alpha lower upper : ndarray) (m : R)
    (kilometers : bool) :
  calc_rayleigh_trans alpha (lower ++ m :: upper) kilometers
  = calc_rayleigh_trans alpha (lower ++ [m]) kilometers
    * calc_rayleigh_trans alpha (m :: upper) kilometers.
Proof.
  rewrite !calc_rayleigh_trans_span, <- exp_plus. f_equal.
  rewrite last_app_cons, hd_app_cons, last_last. cbn [hd].
  unfold Rdiv. ring.
Qed.

Lemma sum_permutation (a b : ndarray) : Permutation a b -> sum a = sum b.
Proof.
  induction 1 as [|x a b _ IH|x y a|a b c _ IH1 _ IH2].
  - reflexivity.
  - rewrite !sum_cons, IH. reflexivity.
  - rewrite !sum_cons. lra.
  - rewrite IH1. exact IH2.
Qed.

(** The extinction samples enter the transmission through their sum only:
    reordering them in any way (against the same altitudes) does not change
    the result. *)
Theorem transmission_ignores_sample_order (alpha alpha' z : ndarray)
    (kilometers : bool) :
  Permutation alpha alpha' ->
  calc_rayleigh_trans alpha z kilometers
  = calc_rayleigh_trans alpha' z kilometers.
Proof.
  intros H. rewrite !calc_rayleigh_trans_span, (sum_permutation _ _ H).
  reflexivity.
Qed.

Lemma transmission_ignores_sample_order_witness :
  Permutation [0.012; 0.011; 0.010] [0.010; 0.011; 0.012]
  /\ calc_rayleigh_trans [0.012; 0.011; 0.010] [0; 1000; 2000] true
     = calc_rayleigh_trans [0.010; 0.011; 0.012] [0; 1000; 2000] true.
Proof.
  assert (H : Permutation [0.012; 0.011; 0.010] [0.010; 0.011; 0.012]).
  { apply perm_trans with [0.011; 0.012; 0.010]; [apply perm_swap|].
    apply perm_trans with [0.011; 0.010; 0.012];
      [apply perm_skip, perm_swap|apply perm_swap]. }
  split; [exact H|].
  exact (transmission_ignores_sample_order _ _ [0; 1000; 2000] true H).
Defined.

Lemma sum_le (a b : ndarray) : Forall2 Rle a b -> sum a <= sum b.
Proof.
  induction 1 as [|x y a b Hxy _ IH]; [lra|].
  rewrite !sum_cons. lra.
Qed.

(** More extinction, less light: over an ascending altitude profile the
    transmission does not rise when every extinction sample does not
    fall. *)
Theorem transmission_antitone (alpha alpha' z : ndarray) (kilometers : bool) :
  ascending z -> Forall2 Rle alpha alpha' ->
  calc_rayleigh_trans alpha' z kilometers
  <= calc_rayleigh_trans alpha z kilometers.
Proof.
  intros Hz Hle. rewrite !calc_rayleigh_trans_span.
  pose proof (sum_le _ _ Hle) as Hs.
  pose proof (ascending_hd_le_last z Hz) as Hspan.
  assert (Hd : 0 <= (last z 0 - hd 0 z) / (if kilometers then 1000 else 1)).
  { apply Rmult_le_pos; [lra|]. left. apply Rinv_0_lt_compat.
    destruct kilometers; lra. }
  set (d := (last z 0 - hd 0 z) / _) in *.
  assert (Hexp : -2 * (sum alpha' * d) <= -2 * (sum alpha * d)) by nra.
  destruct Hexp as [Hlt|Heq].
  - left. apply exp_increasing. exact Hlt.
  - right. rewrite Heq. reflexivity.
Qed.

Lemma transmission_antitone_witness :
  ascending [0; 1000; 2000] /\ Forall2 Rle [0.010; 0.010] [0.012; 0.011]
  /\ calc_rayleigh_trans [0.012; 0.011] [0; 1000; 2000] true
     <= calc_rayleigh_trans [0.010; 0.010] [0; 1000; 2000] true.
Proof.
  assert (Hz : ascending [0; 1000; 2000]).
  { apply ascending_chain_ascending. simpl. repeat split; lra. }
  assert (Hle : Forall2 Rle [0.010; 0.010] [0.012; 0.011]).
  { repeat (apply Forall2_cons; [lra|]). apply Forall2_nil. }
  split; [exact Hz|]. split; [exact Hle|].
  exact (transmission_antitone _ _ _ true Hz Hle).
Defined.

(** The five outputs of a successful call, sample by sample: for a tabulated
    wavelength in nanometres and co-indexed pressure and temperature, the
    four profiles have the length of the input, the backscatter is
    [2.938e-32 * (P / T) * lambda_m ** (-4.0117)] on the temperature as
    given, the extinction is the number density times one positive
    cross-section times 1000, the transmission is that of the extinction
    profile, and [beta_dot_trans] is the backscatter times that one
    transmission. *)
Theorem beta_dot_trans_outputs (wavelength : R)
    (pressure temperature altitude : ndarray) (kilometers celsius : bool) :
  tabulated wavelength ->
  length pressure = length temperature ->
  exists out rs,
    calc_rayleigh_beta_dot_trans wavelength pressure temperature altitude
      true kilometers celsius = Ok out
    /\ calc_rayleigh_scat_cross wavelength = Ok rs /\ 0 < rs
    /\ calc_number_density pressure temperature celsius
       = Ok (numberDensity out)
    /\ rayleigh_trans out
       = calc_rayleigh_trans (alpha out) altitude kilometers
    /\ length (beta_dot_trans out) = length pressure
    /\ length (beta out) = length pressure
    /\ length (numberDensity out) = length pressure
    /\ length (alpha out) = length pressure
    /\ forall i, (i < length pressure)%nat ->
         nth i (beta out) 0
         = 2.938e-32 * (nth i pressure 0 / nth i temperature 0)
           * Rpower (wavelength * 1e-9) (-4.0117)
         /\ nth i (alpha out) 0 = nth i (numberDensity out) 0 * rs * 1000
         /\ nth i (beta_dot_trans out) 0
            = nth i (beta out) 0 * rayleigh_trans out.
Proof.
  intros Hw Hlen.
  destruct (calc_rayleigh_scat_cross_tabulated wavelength Hw)
    as (rs & Hrs & Hpos).
  set (ND := zip_with (fun P T => P / (kB * (if celsius then T + 273.15
                                             else T)))
                      pressure temperature).
  assert (HND : calc_number_density pressure temperature celsius = Ok ND)
    by (apply calc_number_density_formula; exact Hlen).
  assert (HlND : length ND = length pressure)
    by (apply zip_with_length; exact Hlen).
  assert (Hlq : length (zip_with Rdiv pressure temperature)
                = length pressure)
    by (apply zip_with_length; exact Hlen).
  eexists. exists rs. split.
  { unfold calc_rayleigh_beta_dot_trans.
    rewrite calc_beta_rayleigh_ok; [|exact Hlen|destruct Hw; lra].
    cbn [Py.bind]. rewrite HND. cbn [Py.bind].
    unfold calc_rayleigh_extinction. rewrite Hrs. cbn [Py.bind].
    reflexivity. }
  cbn [beta numberDensity alpha beta_dot_trans rayleigh_trans].
  split; [exact Hrs|]. split; [exact Hpos|]. split; [exact HND|].
  split; [reflexivity|].
  rewrite !length_map, Hlq, HlND. do 4 (split; [reflexivity|]).
  intros i Hi. split; [|split].
  - rewrite nth_map_in by (rewrite Hlq; exact Hi).
    rewrite nth_zip_with by assumption. reflexivity.
  - rewrite nth_map_in by (rewrite HlND; exact Hi). reflexivity.
  - rewrite nth_map_in by (rewrite length_map, Hlq; exact Hi). reflexivity.
Qed.

Lemma beta_dot_trans_outputs_witness :
  tabulated 1064
  /\ length [101325; 90000; 80000] = length [288.15; 280; 270]
  /\ exists out,
       calc_rayleigh_beta_dot_trans 1064 [101325; 90000; 80000]
         [288.15; 280; 270] [0; 1; 2] true false false = Ok out
       /\ length (beta_dot_trans out) = 3%nat.
Proof.
  assert (Hw : tabulated 1064) by (unfold tabulated; lra).
  split; [exact Hw|]. split; [reflexivity|].
  destruct (beta_dot_trans_outputs 1064 [101325; 90000; 80000]
              [288.15; 280; 270] [0; 1; 2] false false Hw eq_refl)
    as (out & rs & Hout & _ & _ & _ & _ & Hlen & _).
  exists out. split; [exact Hout|exact Hlen].
Defined.

(** Which exception a bad wavelength gives, for co-indexed pressure and
    temperature: a wavelength of zero stops the backscatter stage with
    [ZeroDivisionError] ([0.0 ** -4.0117]); a wavelength above 1064 (up to
    10**6, one millimetre in nm) passes every closed-form stage and is
    refused by the table lookup with the above-range [ValueError]. *)
Theorem beta_dot_trans_wavelength_errors (wavelength : R)
    (pressure temperature altitude : ndarray)
    (nanometers kilometers celsius : bool) :
  length pressure = length temperature ->
  (wavelength = 0 ->
   calc_rayleigh_beta_dot_trans wavelength pressure temperature altitude
     nanometers kilometers celsius = Raise ZeroDivisionError)
  /\ (1064 < wavelength <= 10 ^ 6 ->
      calc_rayleigh_beta_dot_trans wavelength pressure temperature altitude
        nanometers kilometers celsius = Raise ValueError_above_range).
Proof.
  intros Hlen. split.
  - intros ->. unfold calc_rayleigh_beta_dot_trans, calc_beta_rayleigh, divide.
    rewrite broadcast_same_length by exact Hlen. cbn [Py.bind].
    replace (if nanometers then 0 * 1e-9 else 0) with 0
      by (destruct nanometers; lra).
    unfold Py.pow. destruct (Req_dec_T 0 0) as [_|H]; [reflexivity|].
    exfalso. apply H. reflexivity.
  - intros [Hw _]. unfold calc_rayleigh_beta_dot_trans.
    rewrite calc_beta_rayleigh_ok;
      [|exact Hlen|destruct nanometers; lra].
    cbn [Py.bind]. rewrite calc_number_density_formula by exact Hlen.
    cbn [Py.bind]. unfold calc_rayleigh_extinction, calc_rayleigh_scat_cross.
    assert (Hsq : 1 < wavelength ^ 2) by (simpl; nra).
    assert (Ha : 0 < 10 ^ 6 / wavelength ^ 2 < 1).
    { split; [apply Rdiv_lt_0_compat; [simpl; lra|lra]|].
      apply Rmult_lt_reg_r with (wavelength ^ 2); [lra|].
      unfold Rdiv. rewrite Rmult_assoc, Rinv_l by lra.
      simpl (10 ^ 6). simpl in Hsq |- *. nra. }
    unfold calc_index_refraction.
    rewrite (div_ok (10 ^ 6) (wavelength ^ 2)) by lra. cbn [Py.bind].
    rewrite !div_ok by lra. cbn [Py.bind].
    set (n := 1.0 + _).
    assert (Hden : 0 < wavelength ^ 4 * nstp ^ 2 * (n ^ 2 + 2) ^ 2).
    { apply Rmult_lt_0_compat; [apply Rmult_lt_0_compat|].
      - replace (wavelength ^ 4) with (wavelength ^ 2 * wavelength ^ 2)
          by ring.
        nra.
      - unfold nstp. simpl. nra.
      - assert (0 <= n ^ 2) by (simpl; nra). simpl. nra. }
    rewrite div_ok by lra. cbn [Py.bind].
    rewrite calc_depol_ratio_above by exact Hw. reflexivity.
Qed.

Lemma beta_dot_trans_wavelength_errors_witness :
  length [101325; 90000] = length [15; 10]
  /\ calc_rayleigh_beta_dot_trans 0 [101325; 90000] [15; 10] [0; 1000]
       true true true = Raise ZeroDivisionError
  /\ 1064 < 1550 <= 10 ^ 6
  /\ calc_rayleigh_beta_dot_trans 1550 [101325; 90000] [15; 10] [0; 1000]
       true true true = Raise ValueError_above_range.
Proof.
  assert (H : 1064 < 1550 <= 10 ^ 6) by (simpl; lra).
  split; [reflexivity|]. split; [|split; [exact H|]].
  - apply (proj1 (beta_dot_trans_wavelength_errors 0 [101325; 90000]
                    [15; 10] [0; 1000] true true true eq_refl)).
    reflexivity.
  - apply (proj2 (beta_dot_trans_wavelength_errors 1550 [101325; 90000]
                    [15; 10] [0; 1000] true true true eq_refl)).
    exact H.
Defined.

Lemma Rdiv_le_cross (a b c d : R) :
  0 < b -> 0 < d -> a * d <= c * b -> a / b <= c / d.
Proof.
  intros Hb Hd H.
  replace (a / b) with (a * d * / (b * d)) by (field; lra).
  replace (c / d) with (c * b * / (b * d)) by (field; lra).
  apply Rmult_le_compat_r; [|exact H].
  left. apply Rinv_0_lt_compat. nra.
Qed.

(** Rayleigh scattering is stronger for shorter wavelengths: on the
    tabulated domain the cross-section falls strictly as the wavelength
    grows. *)
Theorem scat_cross_decreasing (w1 w2 : R) :
  tabulated w1 -> tabulated w2 -> w1 < w2 ->
  exists rs1 rs2,
    calc_rayleigh_scat_cross w1 = Ok rs1
    /\ calc_rayleigh_scat_cross w2 = Ok rs2
    /\ rs2 < rs1.
Proof.
  intros H1 H2 Hlt.
  destruct (calc_rayleigh_scat_cross_form w1 H1)
    as (n1 & d1 & rs1 & Hn1 & Hd1 & Hrs1 & E1 & P1 & F1lo & F1hi).
  destruct (calc_rayleigh_scat_cross_form w2 H2)
    as (n2 & d2 & rs2 & Hn2 & Hd2 & Hrs2 & E2 & P2 & F2lo & F2hi).
  destruct (calc_index_refraction_order w1 w2 H1 H2 (Rlt_le _ _ Hlt))
    as (m1 & m2 & Hm1 & Hm2 & Hlo & Hord & Hhi).
  rewrite Hn1 in Hm1. injection Hm1 as <-.
  rewrite Hn2 in Hm2. injection Hm2 as <-.
  assert (Hd : d2 <= d1).
  { apply (interp1d_antitone wavelengths depolarize wavelengths_ascending
             depolarize_nonincreasing eq_refl w1 w2 d1 d2);
      [lra|exact Hd1|exact Hd2|rewrite wavelengths_length; lia]. }
  destruct (calc_depol_ratio_tabulated w1 H1) as (d1' & Hd1' & B1).
  rewrite Hd1 in Hd1'. injection Hd1' as <-.
  destruct (calc_depol_ratio_tabulated w2 H2) as (d2' & Hd2' & B2).
  rewrite Hd2 in Hd2'. injection Hd2' as <-.
  exists rs1, rs2. split; [exact Hrs1|]. split; [exact Hrs2|].
  set (u1 := n1 ^ 2) in *. set (u2 := n2 ^ 2) in *.
  assert (Hu : 1 < u2 /\ u2 <= u1).
  { unfold u1, u2. simpl. split; nra. }
  set (r1 := (u1 - 1) / (u1 + 2)). set (r2 := (u2 - 1) / (u2 + 2)).
  set (F1 := (6 + 3 * d1) / (6 - 7 * d1)) in *.
  set (F2 := (6 + 3 * d2) / (6 - 7 * d2)) in *.
  assert (Hr2 : 0 < r2) by (unfold r2; apply Rdiv_lt_0_compat; lra).
  assert (Hr : r2 <= r1).
  { unfold r1, r2. apply Rdiv_le_cross; [lra|lra|nra]. }
  assert (HF : F2 <= F1).
  { unfold F1, F2. apply Rdiv_le_cross; [lra|lra|nra]. }
  assert (HW1 : 0 < w1 ^ 4).
  { destruct H1. replace (w1 ^ 4) with (w1 ^ 2 * w1 ^ 2) by ring.
    assert (0 < w1 ^ 2) by (simpl; nra). nra. }
  assert (HW : w1 ^ 4 < w2 ^ 4).
  { destruct H1. assert (Hs : w1 ^ 2 < w2 ^ 2) by (simpl; nra).
    assert (0 < w1 ^ 2) by (simpl; nra).
    replace (w1 ^ 4) with (w1 ^ 2 * w1 ^ 2) by ring.
    replace (w2 ^ 4) with (w2 ^ 2 * w2 ^ 2) by ring. nra. }
  assert (HiW : 0 < / w2 ^ 4 < / w1 ^ 4).
  { split; [apply Rinv_0_lt_compat; lra|].
    apply Rinv_lt_contravar; [nra|exact HW]. }
  assert (HK : 0 < 1e36 * 24 * PI ^ 3 / nstp ^ 2).
  { apply Rdiv_lt_0_compat.
    - assert (0 < PI ^ 3) by (apply pow_lt; apply PI_RGT_0). nra.
    - unfold nstp. simpl. nra. }
  assert (Hnstp : nstp <> 0) by (unfold nstp; lra).
  assert (Hw1 : w1 <> 0) by (destruct H1; lra).
  assert (Hw2 : w2 <> 0) by (destruct H2; lra).
  assert (R1 : rs1 = 1e36 * 24 * PI ^ 3 / nstp ^ 2 * (r1 * r1 * F1 * / w1 ^ 4)).
  { rewrite E1. unfold r1, F1. field. repeat split; assumption || lra. }
  assert (R2 : rs2 = 1e36 * 24 * PI ^ 3 / nstp ^ 2 * (r2 * r2 * F2 * / w2 ^ 4)).
  { rewrite E2. unfold r2, F2. field. repeat split; assumption || lra. }
  rewrite R1, R2. apply Rmult_lt_compat_l; [exact HK|].
  assert (Hsq : r2 * r2 <= r1 * r1) by nra.
  assert (HF2 : 0 < F2) by lra.
  assert (Hprod : r2 * r2 * F2 <= r1 * r1 * F1).
  { apply Rle_trans with (r1 * r1 * F2).
    - apply Rmult_le_compat_r; lra.
    - apply Rmult_le_compat_l; [nra|exact HF]. }
  assert (Hpos : 0 < r1 * r1 * F1).
  { apply Rmult_lt_0_compat; [nra|lra]. }
  apply Rle_lt_trans with (r1 * r1 * F1 * / w2 ^ 4).
  - apply Rmult_le_compat_r; [lra|exact Hprod].
  - apply Rmult_lt_compat_l; [exact Hpos|lra].
Qed.

Lemma scat_cross_decreasing_witness :
  tabulated 532 /\ tabulated 1064 /\ 532 < 1064
  /\ exists rs1 rs2,
       calc_rayleigh_scat_cross 532 = Ok rs1
       /\ calc_rayleigh_scat_cross 1064 = Ok rs2 /\ rs2 < rs1.
Proof.
  assert (H1 : tabulated 532) by (unfold tabulated; lra).
  assert (H2 : tabulated 1064) by (unfold tabulated; lra).
  assert (H : 532 < 1064) by lra.
  split; [exact H1|]. split; [exact H2|]. split; [exact H|].
  exact (scat_cross_decreasing 532 1064 H1 H2 H).
Defined.

Lemma Rpower_neg_decreasing (x1 x2 y : R) :
  0 < x1 -> x1 < x2 -> y < 0 -> Rpower x2 y < Rpower x1 y.
Proof.
  intros H1 H12 Hy. unfold Rpower. apply exp_increasing.
  assert (ln x1 < ln x2) by (apply ln_increasing; assumption).
  nra.
Qed.

(** The molecular backscatter coefficient over physical ranges (wavelength
    between 1 nm and 1 mm once in metres, pressure samples between 1e-3 and
    1e7, temperature samples between 1 and 1e4): every sample is positive,
    and it falls strictly as the wavelength grows (the [lambda ** -4.0117]
    law), in either wavelength unit. *)
Theorem beta_rayleigh_wavelength (w1 w2 : R) (P T : ndarray)
    (nanometers : bool) :
  1e-9 <= (if nanometers then w1 * 1e-9 else w1) ->
  (if nanometers then w2 * 1e-9 else w2) <= 1e-3 ->
  w1 < w2 -> length P = length T ->
  Forall (fun p => 1e-3 <= p <= 1e7) P ->
  Forall (fun t => 1 <= t <= 1e4) T ->
  exists b1 b2,
    calc_beta_rayleigh w1 P T nanometers = Ok b1
    /\ calc_beta_rayleigh w2 P T nanometers = Ok b2
    /\ length b1 = length P /\ length b2 = length P
    /\ forall i, (i < length P)%nat -> 0 < nth i b2 0 < nth i b1 0.
Proof.
  intros Hlo Hhi H12 Hlen HP HT.
  set (m := fun w : R => if nanometers then w * 1e-9 else w) in *.
  assert (Hm1 : 0 < m w1) by (change (1e-9 <= m w1) in Hlo; lra).
  assert (Hm12 : m w1 < m w2) by (unfold m; destruct nanometers; lra).
  assert (Hlq : length (zip_with Rdiv P T) = length P)
    by (apply zip_with_length; exact Hlen).
  eexists. eexists.
  split; [apply calc_beta_rayleigh_ok; [exact Hlen|fold (m w1); lra]|].
  split; [apply calc_beta_rayleigh_ok; [exact Hlen|fold (m w2); lra]|].
  fold (m w1) (m w2). rewrite !length_map, Hlq.
  split; [reflexivity|]. split; [reflexivity|].
  intros i Hi. rewrite !nth_map_in by (rewrite Hlq; exact Hi).
  rewrite nth_zip_with by assumption.
  assert (Hq : 0 < nth i P 0 / nth i T 0).
  { rewrite Forall_forall in HP, HT.
    assert (1e-3 <= nth i P 0 <= 1e7) by (apply HP, nth_In; lia).
    assert (1 <= nth i T 0 <= 1e4) by (apply HT, nth_In; lia).
    apply Rdiv_lt_0_compat; lra. }
  assert (Hp2 : 0 < Rpower (m w2) (-4.0117))
    by (unfold Rpower; apply exp_pos).
  assert (Hdec : Rpower (m w2) (-4.0117) < Rpower (m w1) (-4.0117))
    by (apply Rpower_neg_decreasing; lra).
  assert (Hc : 0 < 2.938e-32 * (nth i P 0 / nth i T 0))
    by (apply Rmult_lt_0_compat; lra).
  split.
  - apply Rmult_lt_0_compat; assumption.
  - apply Rmult_lt_compat_l; assumption.
Qed.

Lemma beta_rayleigh_wavelength_witness :
  1e-9 <= 532 * 1e-9 /\ 1064 * 1e-9 <= 1e-3 /\ 532 < 1064
  /\ length [101325; 90000] = length [288.15; 280]
  /\ exists b1 b2,
       calc_beta_rayleigh 532 [101325; 90000] [288.15; 280] true = Ok b1
       /\ calc_beta_rayleigh 1064 [101325; 90000] [288.15; 280] true = Ok b2
       /\ 0 < nth 0 b2 0 < nth 0 b1 0.
Proof.
  assert (H1 : 1e-9 <= 532 * 1e-9) by lra.
  assert (H2 : 1064 * 1e-9 <= 1e-3) by lra.
  assert (H12 : 532 < 1064) by lra.
  assert (HP : Forall (fun p => 1e-3 <= p <= 1e7) [101325; 90000])
    by (repeat (apply Forall_cons; [lra|]); apply Forall_nil).
  assert (HT : Forall (fun t => 1 <= t <= 1e4) [288.15; 280])
    by (repeat (apply Forall_cons; [lra|]); apply Forall_nil).
  split; [exact H1|]. split; [exact H2|]. split; [exact H12|].
  split; [reflexivity|].
  destruct (beta_rayleigh_wavelength 532 1064 [101325; 90000] [288.15; 280]
              true H1 H2 H12 eq_refl HP HT)
    as (b1 & b2 & E1 & E2 & _ & _ & Hnth).
  exists b1, b2. split; [exact E1|]. split; [exact E2|].
  apply (Hnth 0%nat). simpl; lia.
Defined.

(** For a physical sounding (positive pressure, positive kelvin temperature,
    ascending altitude) and a tabulated wavelength, the transmission lies in
    [0, 1] and the attenuated backscatter is non-negative and never exceeds
    the backscatter itself.  The lower bounds are not strict: the exact
    values are positive, but [np.exp] rounds the transmission to 0.0 once the
    optical depth is large. *)
Theorem attenuated_backscatter_bounds (wavelength : R)
    (pressure temperature altitude : ndarray) (kilometers : bool) :
  tabulated wavelength ->
  length pressure = length temperature ->
  Forall (fun p => 0 < p) pressure -> Forall (fun t => 0 < t) temperature ->
  ascending altitude ->
  exists out,
    calc_rayleigh_beta_dot_trans wavelength pressure temperature altitude
      true kilometers false = Ok out
    /\ 0 <= rayleigh_trans out <= 1
    /\ forall i, (i < length pressure)%nat ->
         0 <= nth i (beta_dot_trans out) 0 <= nth i (beta out) 0.
Proof.
  intros Hw Hlen HP HT Hz.
  destruct (calc_rayleigh_scat_cross_tabulated wavelength Hw)
    as (rs & Hrs & Hpos).
  set (ND := zip_with (fun P T => P / (kB * T)) pressure temperature).
  assert (HND : calc_number_density pressure temperature false = Ok ND)
    by (apply (calc_number_density_formula _ _ false); exact Hlen).
  assert (HlND : length ND = length pressure)
    by (apply zip_with_length; exact Hlen).
  assert (Hlq : length (zip_with Rdiv pressure temperature)
                = length pressure)
    by (apply zip_with_length; exact Hlen).
  assert (HkB : 0 < kB) by (unfold kB; lra).
  assert (Hin : forall i, (i < length pressure)%nat ->
                  0 < nth i pressure 0 /\ 0 < nth i temperature 0).
  { intros i Hi. rewrite Forall_forall in HP, HT.
    split; [apply HP|apply HT]; apply nth_In; lia. }
  set (ext := map (fun n => n * rs * 1000) ND).
  assert (Hext : Forall (fun a => 0 <= a) ext).
  { apply Forall_forall. intros a Ha.
    apply (In_nth _ _ 0) in Ha. destruct Ha as (i & Hi & <-).
    unfold ext in *. rewrite length_map, HlND in Hi.
    rewrite nth_map_in by (rewrite HlND; exact Hi).
    unfold ND. rewrite nth_zip_with by assumption.
    destruct (Hin i Hi) as [Hp Ht].
    assert (0 < nth i pressure 0 / (kB * nth i temperature 0)).
    { apply Rdiv_lt_0_compat; [exact Hp|].
      apply Rmult_lt_0_compat; assumption. }
    nra. }
  assert (Htr : 0 < calc_rayleigh_trans ext altitude kilometers <= 1).
  { rewrite calc_rayleigh_trans_span. apply exp_nonpos_le_1.
    pose proof (sum_nonneg ext Hext) as Hs.
    pose proof (ascending_hd_le_last altitude Hz) as Hspan.
    assert (0 <= (last altitude 0 - hd 0 altitude)
                 / (if kilometers then 1000 else 1)).
    { apply Rmult_le_pos; [lra|]. left. apply Rinv_0_lt_compat.
      destruct kilometers; lra. }
    nra. }
  eexists. split.
  { unfold calc_rayleigh_beta_dot_trans.
    rewrite calc_beta_rayleigh_ok; [|exact Hlen|destruct Hw; lra].
    cbn [Py.bind]. rewrite HND. cbn [Py.bind].
    unfold calc_rayleigh_extinction. rewrite Hrs. cbn [Py.bind].
    reflexivity. }
  cbn [beta beta_dot_trans rayleigh_trans]. fold ext.
  split; [lra|].
  intros i Hi.
  rewrite nth_map_in by (rewrite length_map, Hlq; exact Hi).
  rewrite nth_map_in by (rewrite Hlq; exact Hi).
  rewrite nth_zip_with by assumption.
  destruct (Hin i Hi) as [Hp Ht].
  assert (Hq : 0 < nth i pressure 0 / nth i temperature 0)
    by (apply Rdiv_lt_0_compat; assumption).
  assert (Hpw : 0 < Rpower (wavelength * 1e-9) (-4.0117))
    by (unfold Rpower; apply exp_pos).
  assert (Hb : 0 < 2.938e-32 * (nth i pressure 0 / nth i temperature 0)
                   * Rpower (wavelength * 1e-9) (-4.0117)).
  { apply Rmult_lt_0_compat; [|exact Hpw].
    apply Rmult_lt_0_compat; lra. }
  destruct Htr as [Ht0 Ht1]. split; nra.
Qed.

Lemma attenuated_backscatter_bounds_witness :
  tabulated 1064
  /\ ascending [0; 1; 2]
  /\ exists out,
       calc_rayleigh_beta_dot_trans 1064 [101325; 90000; 80000]
         [288.15; 280; 270] [0; 1; 2] true false false = Ok out
       /\ 0 <= rayleigh_trans out <= 1.
Proof.
  assert (Hw : tabulated 1064) by (unfold tabulated; lra).
  assert (Hz : ascending [0; 1; 2]).
  { apply ascending_chain_ascending. simpl. repeat split; lra. }
  assert (HP : Forall (fun p => 0 < p) [101325; 90000; 80000])
    by (repeat (apply Forall_cons; [lra|]); apply Forall_nil).
  assert (HT : Forall (fun t => 0 < t) [288.15; 280; 270])
    by (repeat (apply Forall_cons; [lra|]); apply Forall_nil).
  split; [exact Hw|]. split; [exact Hz|].
  destruct (attenuated_backscatter_bounds 1064 [101325; 90000; 80000]
              [288.15; 280; 270] [0; 1; 2] false Hw eq_refl HP HT Hz)
    as (out & Hout & Htr & _).
  exists out. split; [exact Hout|exact Htr].
Defined.
